(** * The compound BeforeSuite node of ginkgo's [internal/leafnodes]

    A shallow embedding of [compound_before_suite_node.go] and the proofs of
    the properties its specification states about it.

    The file has three parts:
    - the Go values the node inspects by reflection, and the two adapters
      [wrapA] and [wrapB] with the constructor that calls them;
    - the node itself: its fields, the environment it talks to (the phase
      runner's verdicts, the user's functions, net/http, encoding/json and
      the clock) and the methods [Run], [runA], [waitForA], [Passed] and
      [Summary], written in a small state monad that also records the
      observable events in order;
    - the theorems. *)

From Stdlib Require Import ZArith List String Bool Lia.
From Stdlib.Strings Require Byte.
Import ListNotations.
Local Open Scope string_scope.
Local Open Scope list_scope.
Local Open Scope Z_scope.

(** ** Panics

    [NewCompoundBeforeSuiteNode] either returns a node or panics with a
    message. *)

Inductive Result (A : Type) : Type :=
| Ok (a : A)
| Panic (msg : string).

Arguments Ok {A} a.
Arguments Panic {A} msg.

Definition retR {A} (a : A) : Result A := Ok a.

Definition bindR {A B} (c : Result A) (k : A -> Result B) : Result B :=
  match c with
  | Ok a => k a
  | Panic msg => Panic msg
  end.

Declare Scope result_scope.
Delimit Scope result_scope with R.
Notation "x <- c ;; k" := (bindR c (fun x => k))
  (at level 61, c at next level, right associativity) : result_scope.

(** Go's [&&] evaluates its right operand only when the left one is true;
    the operands here may panic, so the order matters. *)
Definition andR (a b : Result bool) : Result bool :=
  bindR a (fun x => if x then b else Ok false).

Infix "&&&" := andR (at level 40, left associativity) : result_scope.

(** ** Go types as package reflect shows them *)

Module reflect.

Inductive Kind : Type :=
| Invalid | Bool | Int | Uint8 | String | Interface | Chan | Slice | Func | Ptr.

Definition Kind_eqb (a b : Kind) : bool :=
  match a, b with
  | Invalid, Invalid | Bool, Bool | Int, Int | Uint8, Uint8
  | String, String | Interface, Interface | Chan, Chan
  | Slice, Slice | Func, Func | Ptr, Ptr => true
  | _, _ => false
  end.

Inductive ChanDir : Type := RecvDir | SendDir | BothDir.

(** A Go type.  [TInterface []] is [interface{}]; a defined type such as
    [type Done chan<- interface{}] is [TNamed "Done" (TChan SendDir ...)]. *)
#[warnings="-register-all"] Inductive Type_ : Type :=
| TBool
| TInt
| TUint8
| TString
| TInterface (methods : list string)
| TChan (dir : ChanDir) (elem : Type_)
| TSlice (elem : Type_)
| TPtr (elem : Type_)
| TFunc (ins outs : list Type_)
| TNamed (name : string) (underlying : Type_).

(** [Type.Kind()]: the kind of a defined type is the kind of its
    underlying type. *)
Fixpoint Kind_of (t : Type_) : Kind :=
  match t with
  | TBool => Bool
  | TInt => Int
  | TUint8 => Uint8
  | TString => String
  | TInterface _ => Interface
  | TChan _ _ => Chan
  | TSlice _ => Slice
  | TPtr _ => Ptr
  | TFunc _ _ => Func
  | TNamed _ u => Kind_of u
  end.

(** [Type.Elem()] panics unless the kind is Chan, Ptr or Slice (arrays
    and maps are not modelled). *)
Fixpoint Elem (t : Type_) : Result Type_ :=
  match t with
  | TChan _ e | TSlice e | TPtr e => Ok e
  | TNamed _ u => Elem u
  | _ => Panic "reflect: Elem of invalid type"
  end.

(** [Type.NumIn()], [Type.In(i)], [Type.NumOut()], [Type.Out(i)] panic
    unless the kind is Func; [In] and [Out] panic out of range. *)
Fixpoint params (t : Type_) : Result (list Type_ * list Type_) :=
  match t with
  | TFunc ins outs => Ok (ins, outs)
  | TNamed _ u => params u
  | _ => Panic "reflect: function API on non-func type"
  end.

Definition NumIn (t : Type_) : Result Z :=
  bindR (params t) (fun p => Ok (Z.of_nat (List.length (fst p)))).

Definition NumOut (t : Type_) : Result Z :=
  bindR (params t) (fun p => Ok (Z.of_nat (List.length (snd p)))).

Definition index (l : list Type_) (i : Z) : Result Type_ :=
  if i <? 0 then Panic "reflect: index out of range"
  else match nth_error l (Z.to_nat i) with
       | Some t => Ok t
       | None => Panic "reflect: index out of range"
       end.

Definition In (t : Type_) (i : Z) : Result Type_ :=
  bindR (params t) (fun p => index (fst p) i).

Definition Out (t : Type_) (i : Z) : Result Type_ :=
  bindR (params t) (fun p => index (snd p) i).

End reflect.

(** A value of static type [interface{}]: nil, or a value of some dynamic
    type.  [ident] tells two values of one type apart. *)
Inductive Iface : Type :=
| INil
| IVal (t : reflect.Type_) (ident : nat).

(** [reflect.TypeOf]: the dynamic type, the nil [Type] for a nil
    interface. *)
Definition TypeOf (v : Iface) : option reflect.Type_ :=
  match v with
  | INil => None
  | IVal t _ => Some t
  end.

(** Calling a method on the nil [reflect.Type] is a nil dereference. *)
Definition nil_dereference : string :=
  "runtime error: invalid memory address or nil pointer dereference".

Definition Kind (t : option reflect.Type_) : Result reflect.Kind :=
  match t with
  | Some t => Ok (reflect.Kind_of t)
  | None => Panic nil_dereference
  end.

Definition deref (t : option reflect.Type_) : Result reflect.Type_ :=
  match t with
  | Some t => Ok t
  | None => Panic nil_dereference
  end.

(** ** The two adapters

    The closures [wrapA] and [wrapB] return capture the node and the user's
    function.  They are kept as data: which adapter, whether it takes the
    Done channel, and the user's function.  [call_wrapped] below runs
    them. *)

Inductive WrappedFn : Type :=
| WrapA (takesDone : bool) (bodyA : Iface)
| WrapB (takesDone : bool) (bodyB : Iface).

Definition kind_is (t : Result reflect.Type_) (k : reflect.Kind) : Result bool :=
  bindR t (fun t => Ok (reflect.Kind_eqb (reflect.Kind_of t) k)).

Definition num_is (n : Result Z) (k : Z) : Result bool :=
  bindR n (fun n => Ok (n =? k)).

Definition msgA_notfunc : string :=
  "CompoundBeforeSuite expects a function as its first argument".
Definition msgA_shape : string :=
  "CompoundBeforeSuite's first argument should be a function that returns []byte and either takes no arguments or takes a Done channel.".
Definition msgB_notfunc : string :=
  "CompoundBeforeSuite expects a function as its second argument".
Definition msgB_shape : string :=
  "CompoundBeforeSuite's second argument should be a function that returns nothing and either takes []byte or ([]byte, Done)".

Definition wrapA (bodyA : Iface) : Result WrappedFn :=
  (let typeA := TypeOf bodyA in
   k <- Kind typeA ;;
   if negb (reflect.Kind_eqb k reflect.Func) then Panic msgA_notfunc else
   typeA <- deref typeA ;;
   takesNothing <- num_is (reflect.NumIn typeA) 0 ;;
   takesADoneChannel <-
     num_is (reflect.NumIn typeA) 1
     &&& kind_is (reflect.In typeA 0) reflect.Chan
     &&& kind_is (t <- reflect.In typeA 0 ;; reflect.Elem t) reflect.Interface ;;
   returnsBytes <-
     num_is (reflect.NumOut typeA) 1
     &&& kind_is (reflect.Out typeA 0) reflect.Slice
     &&& kind_is (t <- reflect.Out typeA 0 ;; reflect.Elem t) reflect.Uint8 ;;
   if negb ((takesNothing || takesADoneChannel) && returnsBytes)
   then Panic msgA_shape
   else if takesADoneChannel then Ok (WrapA true bodyA)
   else Ok (WrapA false bodyA))%R.

Definition wrapB (bodyB : Iface) : Result WrappedFn :=
  (let typeB := TypeOf bodyB in
   k <- Kind typeB ;;
   if negb (reflect.Kind_eqb k reflect.Func) then Panic msgB_notfunc else
   typeB <- deref typeB ;;
   returnsNothing <- num_is (reflect.NumOut typeB) 0 ;;
   takesBytesOnly <-
     num_is (reflect.NumIn typeB) 1
     &&& kind_is (reflect.In typeB 0) reflect.Slice
     &&& kind_is (t <- reflect.In typeB 0 ;; reflect.Elem t) reflect.Uint8 ;;
   takesBytesAndDone <-
     num_is (reflect.NumIn typeB) 2
     &&& kind_is (reflect.In typeB 0) reflect.Slice
     &&& kind_is (t <- reflect.In typeB 0 ;; reflect.Elem t) reflect.Uint8
     &&& kind_is (reflect.In typeB 1) reflect.Chan
     &&& kind_is (t <- reflect.In typeB 1 ;; reflect.Elem t) reflect.Interface ;;
   if negb ((takesBytesOnly || takesBytesAndDone) && returnsNothing)
   then Panic msgB_shape
   else if takesBytesAndDone then Ok (WrapB true bodyB)
   else Ok (WrapB false bodyB))%R.

(** ** Package types

    Modelled from the spec: package [types] is not part of the sources at
    hand.  The spec's PhaseOutcome names the states Passed and Failed and a
    failure detail of message, source location, component type and
    component index; the other members of [SpecState] stand for the
    runner's remaining verdicts (a panic, a timeout), and
    [SpecStateInvalid] is the zero value a fresh node holds. *)

Module types.

Inductive SpecState : Type :=
| SpecStateInvalid
| SpecStatePending
| SpecStateSkipped
| SpecStatePassed
| SpecStateFailed
| SpecStatePanicked
| SpecStateTimedOut.

Definition SpecState_eqb (a b : SpecState) : bool :=
  match a, b with
  | SpecStateInvalid, SpecStateInvalid
  | SpecStatePending, SpecStatePending
  | SpecStateSkipped, SpecStateSkipped
  | SpecStatePassed, SpecStatePassed
  | SpecStateFailed, SpecStateFailed
  | SpecStatePanicked, SpecStatePanicked
  | SpecStateTimedOut, SpecStateTimedOut => true
  | _, _ => false
  end.

Inductive SpecComponentType : Type :=
| SpecComponentTypeInvalid
| SpecComponentTypeBeforeSuite
| SpecComponentTypeAfterSuite.

Record CodeLocation : Type := {
  FileName : string;
  LineNumber : Z
}.

Record SpecFailure : Type := {
  Message : string;
  Location : CodeLocation;
  ComponentType : SpecComponentType;
  ComponentIndex : Z;
  ComponentCodeLocation : CodeLocation
}.

(** The zero values Go gives [CodeLocation{}] and [SpecFailure{}]. *)
Definition CodeLocation_zero : CodeLocation :=
  {| FileName := ""; LineNumber := 0 |}.

Definition SpecFailure_zero : SpecFailure :=
  {| Message := "";
     Location := CodeLocation_zero;
     ComponentType := SpecComponentTypeInvalid;
     ComponentIndex := 0;
     ComponentCodeLocation := CodeLocation_zero |}.

Record SetupSummary : Type := {
  Summary_ComponentType : SpecComponentType;
  Summary_CodeLocation : CodeLocation;
  Summary_State : SpecState;
  Summary_RunTime : Z;
  Summary_Failure : SpecFailure
}.

End types.

Import types.

(** ** The remote state record *)

Definition bytes : Type := list Byte.byte.

(** [type RemoteStateState int] with its five constants. *)
Definition RemoteStateState : Type := Z.

Definition RemoteStateStateInvalid : RemoteStateState := 0.
Definition RemoteStateStatePending : RemoteStateState := 1.
Definition RemoteStateStatePassed : RemoteStateState := 2.
Definition RemoteStateStateFailed : RemoteStateState := 3.
Definition RemoteStateStateDisappeared : RemoteStateState := 4.

Record RemoteState : Type := {
  Data : bytes;
  State : RemoteStateState
}.

(** ** The phase runner

    Modelled from the spec: the runner ([newRunner], [runner.run]) is an
    external collaborator whose code is not at hand.  It holds the wrapped
    function with the location, timeout, component type and index it was
    created with; [run], below, executes the wrapped function and yields an
    outcome with failure details. *)

Definition Failer : Type := unit.

Record runner : Type := {
  wrapped : WrappedFn;
  codeLocation : CodeLocation;
  timeoutThreshold : Z;
  nodeType : SpecComponentType;
  componentIndex : Z
}.

Definition newRunner (body : WrappedFn) (codeLocation : CodeLocation)
    (timeout : Z) (failer : Failer) (nodeType : SpecComponentType)
    (componentIndex : Z) : runner :=
  {| wrapped := body;
     codeLocation := codeLocation;
     timeoutThreshold := timeout;
     nodeType := nodeType;
     componentIndex := componentIndex |}.

(** ** The node *)

Record compoundBeforeSuiteNode : Type := {
  runnerA : runner;
  runnerB : runner;
  ginkgoNode : Z;
  totalGinkgoNodes : Z;
  syncHost : string;
  data : bytes;
  outcome : SpecState;
  failure : SpecFailure;
  runTime : Z
}.

Definition set_data (d : bytes) (n : compoundBeforeSuiteNode) :=
  {| runnerA := runnerA n; runnerB := runnerB n;
     ginkgoNode := ginkgoNode n; totalGinkgoNodes := totalGinkgoNodes n;
     syncHost := syncHost n; data := d;
     outcome := outcome n; failure := failure n; runTime := runTime n |}.

Definition set_result (r : SpecState * SpecFailure) (n : compoundBeforeSuiteNode) :=
  {| runnerA := runnerA n; runnerB := runnerB n;
     ginkgoNode := ginkgoNode n; totalGinkgoNodes := totalGinkgoNodes n;
     syncHost := syncHost n; data := data n;
     outcome := fst r; failure := snd r; runTime := runTime n |}.

Definition set_runTime (d : Z) (n : compoundBeforeSuiteNode) :=
  {| runnerA := runnerA n; runnerB := runnerB n;
     ginkgoNode := ginkgoNode n; totalGinkgoNodes := totalGinkgoNodes n;
     syncHost := syncHost n; data := data n;
     outcome := outcome n; failure := failure n; runTime := d |}.

(** [NewCompoundBeforeSuiteNode]: [wrapA] is evaluated before [wrapB], and
    a panic of either leaves no node. *)
Definition NewCompoundBeforeSuiteNode (bodyA bodyB : Iface)
    (codeLocation : CodeLocation) (timeout : Z) (failer : Failer)
    (ginkgoNode totalGinkgoNodes : Z) (syncHost : string)
  : Result compoundBeforeSuiteNode :=
  (a <- wrapA bodyA ;;
   b <- wrapB bodyB ;;
   Ok {| runnerA := newRunner a codeLocation timeout failer SpecComponentTypeBeforeSuite 0;
         runnerB := newRunner b codeLocation timeout failer SpecComponentTypeBeforeSuite 0;
         ginkgoNode := ginkgoNode;
         totalGinkgoNodes := totalGinkgoNodes;
         syncHost := syncHost;
         data := [];
         outcome := SpecStateInvalid;
         failure := SpecFailure_zero;
         runTime := 0 |})%R.

Definition Passed (node : compoundBeforeSuiteNode) : bool :=
  SpecState_eqb (outcome node) SpecStatePassed.

Definition Summary (node : compoundBeforeSuiteNode) : SetupSummary :=
  {| Summary_ComponentType := nodeType (runnerA node);
     Summary_CodeLocation := codeLocation (runnerA node);
     Summary_State := outcome node;
     Summary_RunTime := runTime node;
     Summary_Failure := failure node |}.

(** ** What the node does to the outside, and what the outside answers

    Every interaction of the node with something that is not its own code
    is an [Event]; a run records them in order.  The outside is an [Env]: each
    answer is a function of the history so far, so that no assumption is
    made on how the user's functions, the runner, the server or the clock
    behave. *)

Inductive Phase : Type := PhaseA | PhaseB.

(** An argument of a reflective call: the payload, or the Done channel. *)
Inductive GoValue : Type :=
| VBytes (b : bytes)
| VDone.

Inductive Event : Type :=
| EvRun (which : Phase)
    (* [node.runnerA.run()] or [node.runnerB.run()] is entered *)
| EvCall (by_ : Phase) (fn : Iface) (args : list GoValue)
    (* [reflect.ValueOf(fn).Call(args)], issued by the closure of [wrapA]
       ([PhaseA]) or of [wrapB] ([PhaseB]) *)
| EvPost (url contentType : string) (body : bytes) (ok : bool)
    (* [http.Post]; [ok] tells whether it returned a nil error *)
| EvGet (url : string)
    (* [http.Get] *)
| EvSleep (d : Z).
    (* [time.Sleep], in nanoseconds *)

(** What [http.Get] followed by [ioutil.ReadAll] can give: an error of the
    GET itself, or a response with a status code whose body either cannot
    be read or reads as some bytes. *)
Record Response : Type := {
  StatusCode : Z;
  Body : option bytes
}.

Inductive GetResult : Type :=
| GetError
| GetOk (resp : Response).

Definition StatusOK : Z := 200.
Definition Millisecond : Z := 1000000.

Record Env : Type := {
  (* [time.Now()], in nanoseconds *)
  env_now : list Event -> Z;
  (* a reflective call of the user's function: [Some b] when the call and
     the conversion of its result to []byte complete with [b], [None] when
     the call panics or never returns *)
  env_call : list Event -> Iface -> list GoValue -> option bytes;
  (* the outcome and failure the runner reports for the run that just
     finished *)
  env_verdict : list Event -> SpecState * SpecFailure;
  (* whether [http.Post] returns a nil error *)
  env_post : list Event -> string -> string -> bytes -> bool;
  env_get : list Event -> string -> GetResult;
  (* [json.Marshal] and [json.Unmarshal] on [RemoteState] *)
  env_marshal : RemoteState -> bytes;
  env_unmarshal : bytes -> option RemoteState
}.

(** ** The monad of methods

    A method reads and writes the node it is called on and appends to the
    trace.  [None] is a method that has not returned: the poll loop of
    [waitForA] with no fuel left. *)

Record St : Type := {
  node : compoundBeforeSuiteNode;
  trace : list Event
}.

Definition M (A : Type) : Type := St -> option (A * St).

Definition retM {A} (a : A) : M A := fun s => Some (a, s).

Definition bindM {A B} (c : M A) (k : A -> M B) : M B :=
  fun s => match c s with
           | Some (a, s') => k a s'
           | None => None
           end.

Declare Scope method_scope.
Delimit Scope method_scope with M.
Notation "x <- c ;; k" := (bindM c (fun x => k))
  (at level 61, c at next level, right associativity) : method_scope.
Notation "c ;;; k" := (bindM c (fun _ => k))
  (at level 61, right associativity) : method_scope.

Definition this : M compoundBeforeSuiteNode := fun s => Some (node s, s).

Definition history : M (list Event) := fun s => Some (trace s, s).

Definition update (f : compoundBeforeSuiteNode -> compoundBeforeSuiteNode) : M unit :=
  fun s => Some (tt, {| node := f (node s); trace := trace s |}).

Definition emit (e : Event) : M unit :=
  fun s => Some (tt, {| node := node s; trace := trace s ++ [e] |}).

Definition spin {A} : M A := fun _ => None.

Section Methods.

Variable env : Env.

Definition time_Now : M Z :=
  (h <- history ;; retM (env_now env h))%M.

Definition time_Since (t : Z) : M Z :=
  (now <- time_Now ;; retM (now - t))%M.

Definition time_Sleep (d : Z) : M unit := emit (EvSleep d).

Definition http_Post (url contentType : string) (body : bytes) : M bool :=
  (h <- history ;;
   let ok := env_post env h url contentType body in
   emit (EvPost url contentType body ok) ;;;
   retM ok)%M.

Definition http_Get (url : string) : M GetResult :=
  (h <- history ;;
   emit (EvGet url) ;;;
   retM (env_get env h url))%M.

Definition Call (by_ : Phase) (fn : Iface) (args : list GoValue) : M (option bytes) :=
  (h <- history ;;
   emit (EvCall by_ fn args) ;;;
   retM (env_call env h fn args))%M.

(** [RemoteState.ToJSON]: the error of [json.Marshal] is dropped. *)
Definition ToJSON (r : RemoteState) : bytes := env_marshal env r.

(** The closures of [wrapA] and [wrapB].  That of [wrapA] assigns
    [node.data] once the call has returned; that of [wrapB] reads
    [node.data] when it is called, not when it was built. *)
Definition call_wrapped (w : WrappedFn) : M unit :=
  (match w with
   | WrapA takesDone bodyA =>
       out <- Call PhaseA bodyA (if takesDone then [VDone] else []) ;;
       match out with
       | Some b => update (set_data b)
       | None => retM tt
       end
   | WrapB takesDone bodyB =>
       n <- this ;;
       _ <- Call PhaseB bodyB (if takesDone then [VBytes (data n); VDone]
                               else [VBytes (data n)]) ;;
       retM tt
   end)%M.

Definition runner_of (which : Phase) (n : compoundBeforeSuiteNode) : runner :=
  match which with
  | PhaseA => runnerA n
  | PhaseB => runnerB n
  end.

(** Modelled from the spec: [runner.run] is not part of the sources at
    hand.  The Phase Runner executes a single wrapped function under a
    timeout and yields an outcome plus failure details; the outcome is the
    environment's, whatever the wrapped function did. *)
Definition run (which : Phase) : M (SpecState * SpecFailure) :=
  (n <- this ;;
   emit (EvRun which) ;;;
   call_wrapped (wrapped (runner_of which n)) ;;;
   h <- history ;;
   retM (env_verdict env h))%M.

Definition BeforeSuiteState (host : string) : string :=
  String.append host "/BeforeSuiteState".

Definition runA : M (SpecState * SpecFailure) :=
  (r <- run PhaseA ;;
   let '(outcome, failure) := r in
   n <- this ;;
   (if totalGinkgoNodes n >? 1 then
      let state :=
        if negb (SpecState_eqb outcome SpecStatePassed)
        then RemoteStateStateFailed else RemoteStateStatePassed in
      let json := ToJSON {| Data := data n; State := state |} in
      _ <- http_Post (BeforeSuiteState (syncHost n)) "application/json" json ;;
      retM tt
    else retM tt) ;;;
   retM (outcome, failure))%M.

(** The closure [failure] of [waitForA]. *)
Definition failureAt (n : compoundBeforeSuiteNode) (message : string) : SpecFailure :=
  {| Message := message;
     Location := codeLocation (runnerA n);
     ComponentType := nodeType (runnerA n);
     ComponentIndex := componentIndex (runnerA n);
     ComponentCodeLocation := codeLocation (runnerA n) |}.

Definition msg_fetch : string := "Failed to fetch BeforeSuite state".
Definition msg_read : string := "Failed to read BeforeSuite state".
Definition msg_decode : string := "Failed to decode BeforeSuite state".
Definition msg_failed : string := "BeforeSuite on Node 1 failed".
Definition msg_disappeared : string :=
  "Node 1 dissappeared before completing BeforeSuite".

(** [waitForA]: the [for] loop has no exit of its own, so the [return]
    after it is never reached; [fuel] bounds the number of GETs, and the
    method has not returned when it is used up.  Closing the body of the
    response changes nothing that is recorded here. *)
Fixpoint waitForA (fuel : nat) : M (SpecState * SpecFailure) :=
  match fuel with
  | O => spin
  | S fuel' =>
    (n <- this ;;
     got <- http_Get (BeforeSuiteState (syncHost n)) ;;
     match got with
     | GetError => retM (SpecStateFailed, failureAt n msg_fetch)
     | GetOk resp =>
       if negb (StatusCode resp =? StatusOK)
       then retM (SpecStateFailed, failureAt n msg_fetch)
       else
         match Body resp with
         | None => retM (SpecStateFailed, failureAt n msg_read)
         | Some body =>
           match env_unmarshal env body with
           | None => retM (SpecStateFailed, failureAt n msg_decode)
           | Some r =>
             if State r =? RemoteStateStatePassed then
               update (set_data (Data r)) ;;;
               retM (SpecStatePassed, SpecFailure_zero)
             else if State r =? RemoteStateStateFailed then
               retM (SpecStateFailed, failureAt n msg_failed)
             else if State r =? RemoteStateStateDisappeared then
               retM (SpecStateFailed, failureAt n msg_disappeared)
             else
               time_Sleep (50 * Millisecond) ;;;
               waitForA fuel'
           end
         end
     end)%M
  end.

(** [Run]: the deferred function stores the elapsed time on the way out,
    on either return. *)
Definition Run (fuel : nat) : M bool :=
  (t <- time_Now ;;
   n <- this ;;
   r <- (if ginkgoNode n =? 1 then runA else waitForA fuel) ;;
   update (set_result r) ;;;
   n <- this ;;
   result <-
     (if negb (SpecState_eqb (outcome n) SpecStatePassed) then retM false
      else
        r <- run PhaseB ;;
        update (set_result r) ;;;
        n <- this ;;
        retM (SpecState_eqb (outcome n) SpecStatePassed)) ;;
   d <- time_Since t ;;
   update (set_runTime d) ;;;
   retM result)%M.

End Methods.

(** ** Vocabulary of the statements *)

Section Observations.

Variable env : Env.

(** The address a follower polls and the answer it would get now. *)
Definition url (s : St) : string := BeforeSuiteState (syncHost (node s)).

Definition answer (s : St) : GetResult := env_get env (trace s) (url s).

(** The four things one GET attempt can amount to. *)
Definition fetch_fails (s : St) : Prop :=
  answer s = GetError \/
  exists resp, answer s = GetOk resp /\ StatusCode resp <> StatusOK.

Definition body_unreadable (s : St) : Prop :=
  exists resp,
    answer s = GetOk resp /\ StatusCode resp = StatusOK /\ Body resp = None.

Definition body_malformed (s : St) : Prop :=
  exists resp body,
    answer s = GetOk resp /\ StatusCode resp = StatusOK /\
    Body resp = Some body /\ env_unmarshal env body = None.

Definition observes (s : St) (r : RemoteState) : Prop :=
  exists resp body,
    answer s = GetOk resp /\ StatusCode resp = StatusOK /\
    Body resp = Some body /\ env_unmarshal env body = Some r.

(** A decoded record the loop does not return on. *)
Definition keeps_polling (s : St) : Prop :=
  exists r, observes s r /\
            State r <> RemoteStateStatePassed /\
            State r <> RemoteStateStateFailed /\
            State r <> RemoteStateStateDisappeared.

(** The state after one GET, and after one GET and the sleep. *)
Definition got (s : St) : St :=
  {| node := node s; trace := trace s ++ [EvGet (url s)] |}.

Definition slept (s : St) : St :=
  {| node := node s;
     trace := (trace s ++ [EvGet (url s)]) ++ [EvSleep (50 * Millisecond)] |}.

Fixpoint after_polls (n : nat) (s : St) : St :=
  match n with
  | O => s
  | S n' => after_polls n' (slept s)
  end.

(** The next [n] attempts all decode to a record the loop does not
    return on. *)
Fixpoint all_pending (n : nat) (s : St) : Prop :=
  match n with
  | O => True
  | S n' => keeps_polling s /\ all_pending n' (slept s)
  end.

(** Phase A as [Run] obtains it: run locally on node 1, waited for
    elsewhere. *)
Definition phaseA (fuel : nat) : M (SpecState * SpecFailure) :=
  fun s => if ginkgoNode (node s) =? 1 then runA env s else waitForA env fuel s.

(** The state a runner's [run] leaves. *)
Definition ran (which : Phase) (s : St) : St :=
  match run env which s with
  | Some (_, s') => s'
  | None => s
  end.

(** The state [Run] leaves: the result stored, then the elapsed time. *)
Definition stored (r : SpecState * SpecFailure) (s : St) : St :=
  {| node := set_result r (node s); trace := trace s |}.

Definition left_at (t : Z) (s : St) : St :=
  {| node := set_runTime (env_now env (trace s) - t) (node s);
     trace := trace s |}.

(** The Done channel, for a closure that takes it. *)
Definition done_arg (takesDone : bool) : list GoValue :=
  if takesDone then [VDone] else [].

(** The call a closure issues on node [n], and the POST of [runA] after
    an outcome [o]. *)
Definition call_of (w : WrappedFn) (n : compoundBeforeSuiteNode) : Event :=
  match w with
  | WrapA takesDone bodyA =>
      EvCall PhaseA bodyA (done_arg takesDone)
  | WrapB takesDone bodyB =>
      EvCall PhaseB bodyB (VBytes (data n) :: done_arg takesDone)
  end.

Definition record_of (o : SpecState) (n : compoundBeforeSuiteNode) : RemoteState :=
  {| Data := data n;
     State := if SpecState_eqb o SpecStatePassed
              then RemoteStateStatePassed else RemoteStateStateFailed |}.

Definition publication (o : SpecState) (s : St) : Event :=
  let body := ToJSON env (record_of o (node s)) in
  EvPost (url s) "application/json" body
         (env_post env (trace s) (url s) "application/json" body).

Definition published (o : SpecState) (s : St) : St :=
  {| node := node s; trace := trace s ++ [publication o s] |}.


End Observations.

(** The events of [n] attempts that each ended in the sleep. *)
Fixpoint polls (u : string) (n : nat) : list Event :=
  match n with
  | O => []
  | S n' => EvGet u :: EvSleep (50 * Millisecond) :: polls u n'
  end.

(** The events [tr] a method added between [s] and [s']. *)
Definition added (s s' : St) (tr : list Event) : Prop :=
  trace s' = trace s ++ tr.

Definition is_run (which : Phase) (e : Event) : bool :=
  match e, which with
  | EvRun PhaseA, PhaseA | EvRun PhaseB, PhaseB => true
  | _, _ => false
  end.

Definition is_call (by_ : Phase) (e : Event) : bool :=
  match e, by_ with
  | EvCall PhaseA _ _, PhaseA | EvCall PhaseB _ _, PhaseB => true
  | _, _ => false
  end.

Definition is_post (e : Event) : bool :=
  match e with EvPost _ _ _ _ => true | _ => false end.

Definition is_get (e : Event) : bool :=
  match e with EvGet _ => true | _ => false end.


Definition count (p : Event -> bool) (tr : list Event) : nat :=
  List.length (List.filter p tr).

(** A node as the constructor builds it: runner A holds a closure of
    [wrapA] and runner B one of [wrapB]. *)
Definition built_from (bodyA bodyB : Iface) (n : compoundBeforeSuiteNode) : Prop :=
  (exists d, wrapped (runnerA n) = WrapA d bodyA) /\
  (exists d, wrapped (runnerB n) = WrapB d bodyB).

(** ** The shapes of the two functions

    First the shapes as the specification words them: a producer is
    [func() []byte] or [func(Done) []byte], a consumer is [func([]byte)] or
    [func([]byte, Done)], where [Done] is ginkgo's [chan<- interface{}],
    under its name or not. *)

Definition is_bytes (t : reflect.Type_) : bool :=
  match t with
  | reflect.TSlice reflect.TUint8 => true
  | _ => false
  end.

Definition is_Done (t : reflect.Type_) : bool :=
  match t with
  | reflect.TChan reflect.SendDir (reflect.TInterface [])
  | reflect.TNamed _ (reflect.TChan reflect.SendDir (reflect.TInterface [])) => true
  | _ => false
  end.

Definition producer_shape (v : Iface) : bool :=
  match v with
  | IVal (reflect.TFunc [] [o]) _ => is_bytes o
  | IVal (reflect.TFunc [i] [o]) _ => is_Done i && is_bytes o
  | _ => false
  end.

Definition consumer_shape (v : Iface) : bool :=
  match v with
  | IVal (reflect.TFunc [i] []) _ => is_bytes i
  | IVal (reflect.TFunc [i; j] []) _ => is_bytes i && is_Done j
  | _ => false
  end.

(** Then the shapes by kind: the same, up to the names of defined types,
    the direction of the channel and the methods of the interface its
    elements have. *)

Fixpoint underlying (t : reflect.Type_) : reflect.Type_ :=
  match t with
  | reflect.TNamed _ u => underlying u
  | _ => t
  end.

Definition is_func (t : reflect.Type_) : bool :=
  match underlying t with
  | reflect.TFunc _ _ => true
  | _ => false
  end.

Definition is_interface (t : reflect.Type_) : bool :=
  match underlying t with
  | reflect.TInterface _ => true
  | _ => false
  end.

Definition is_uint8 (t : reflect.Type_) : bool :=
  match underlying t with
  | reflect.TUint8 => true
  | _ => false
  end.

Definition chan_of_interfaces (t : reflect.Type_) : bool :=
  match underlying t with
  | reflect.TChan _ e => is_interface e
  | _ => false
  end.

Definition slice_of_uint8 (t : reflect.Type_) : bool :=
  match underlying t with
  | reflect.TSlice e => is_uint8 e
  | _ => false
  end.

Definition producer_kinds (t : reflect.Type_) : bool :=
  match underlying t with
  | reflect.TFunc [] [o] => slice_of_uint8 o
  | reflect.TFunc [i] [o] => chan_of_interfaces i && slice_of_uint8 o
  | _ => false
  end.

Definition consumer_kinds (t : reflect.Type_) : bool :=
  match underlying t with
  | reflect.TFunc [i] [] => slice_of_uint8 i
  | reflect.TFunc [i; j] [] => slice_of_uint8 i && chan_of_interfaces j
  | _ => false
  end.

(** Whether the function takes one parameter, or two. *)
Definition takes (k : nat) (t : reflect.Type_) : bool :=
  match underlying t with
  | reflect.TFunc ins _ => Nat.eqb (List.length ins) k
  | _ => false
  end.

(** Whether a panic message names the first, or the second, argument. *)
Definition names (which : string) (msg : string) : bool :=
  match String.index 0 (String.append which " argument") msg with
  | Some _ => true
  | None => false
  end.

(** ** A small world to run the methods in

    A producer [func() []byte], a consumer [func([]byte, Done)], a codec
    that puts the state in the first byte, a server that answers a given
    number of GETs with a Pending record before its final answer, and a
    runner that always reports the same outcome. *)

Module Example_world.

Import reflect.

Definition Done : Type_ := TNamed "Done" (TChan SendDir (TInterface [])).
Definition Bytes : Type_ := TSlice TUint8.

Definition producer : Iface := IVal (TFunc [] [Bytes]) 1.
Definition consumer : Iface := IVal (TFunc [Bytes; Done] []) 2.

Definition location : CodeLocation :=
  {| FileName := "suite_test.go"; LineNumber := 12 |}.

Definition payload : bytes := [Byte.x68; Byte.x69].

Definition encode (r : RemoteState) : bytes :=
  match Byte.of_N (Z.to_N (State r)) with
  | Some b => b :: Data r
  | None => []
  end.

Definition decode (b : bytes) : option RemoteState :=
  match b with
  | [] => None
  | st :: d => Some {| Data := d; State := Z.of_N (Byte.to_N st) |}
  end.

Definition pending_answer : GetResult :=
  GetOk {| StatusCode := 200;
           Body := Some (encode {| Data := []; State := RemoteStateStatePending |}) |}.

Definition answer_with (r : RemoteState) : GetResult :=
  GetOk {| StatusCode := 200; Body := Some (encode r) |}.

Definition server (waits : nat) (final : GetResult)
    (h : list Event) (u : string) : GetResult :=
  if (count is_get h <? waits)%nat then pending_answer else final.

Definition world (verdict : SpecState) (waits : nat) (final : GetResult) : Env :=
  {| env_now := fun h => Z.of_nat (List.length h) * Millisecond;
     env_call := fun _ _ _ => Some payload;
     env_verdict := fun _ => (verdict, SpecFailure_zero);
     env_post := fun _ _ _ _ => true;
     env_get := server waits final;
     env_marshal := encode;
     env_unmarshal := decode |}.

Definition fresh (ordinal total : Z) : compoundBeforeSuiteNode :=
  {| runnerA := newRunner (WrapA false producer) location 1000 tt
                          SpecComponentTypeBeforeSuite 0;
     runnerB := newRunner (WrapB true consumer) location 1000 tt
                          SpecComponentTypeBeforeSuite 0;
     ginkgoNode := ordinal;
     totalGinkgoNodes := total;
     syncHost := "http://127.0.0.1:7788";
     data := [];
     outcome := SpecStateInvalid;
     failure := SpecFailure_zero;
     runTime := 0 |}.

Definition start (ordinal total : Z) : St :=
  {| node := fresh ordinal total; trace := [] |}.

(** A function that takes a channel of errors: not a Done channel. *)
Definition error : Type_ := TNamed "error" (TInterface ["Error"]).
Definition takes_errors : Iface := IVal (TFunc [TChan BothDir error] [Bytes]) 3.

End Example_world.

(** What a run of [Run] shows from outside. *)
Definition report (r : option (bool * St))
  : option (bool * list Event * bytes * SpecState * Z) :=
  match r with
  | Some (b, s) =>
      Some (b, trace s, data (node s), outcome (node s), runTime (node s))
  | None => None
  end.

(** ** Vocabulary of the further properties *)

(** What [Run] leaves alone in a node: the runners, the identity of the
    node and the address of the server. *)
Definition same_setup (n n' : compoundBeforeSuiteNode) : Prop :=
  runnerA n' = runnerA n /\
  runnerB n' = runnerB n /\
  ginkgoNode n' = ginkgoNode n /\
  totalGinkgoNodes n' = totalGinkgoNodes n /\
  syncHost n' = syncHost n.


(** The parameters of a function type, and whether an argument of a
    reflective call is of the kind a parameter asks for. *)
Definition params_of (t : reflect.Type_) : list reflect.Type_ :=
  match underlying t with
  | reflect.TFunc ins _ => ins
  | _ => []
  end.

Definition fits (v : GoValue) (t : reflect.Type_) : Prop :=
  match v with
  | VBytes _ => slice_of_uint8 t = true
  | VDone => chan_of_interfaces t = true
  end.

(** ** Basic facts *)

Lemma SpecState_eqb_eq (a b : SpecState) : SpecState_eqb a b = true <-> a = b.
Proof. destruct a, b; simpl; split; intro H; try reflexivity; discriminate H. Qed.

Lemma SpecState_eqb_neq (a b : SpecState) : SpecState_eqb a b = false <-> a <> b.
Proof.
  rewrite <- SpecState_eqb_eq. destruct (SpecState_eqb a b); split; congruence.
Qed.

Ltac methods :=
  cbv [Run runA run call_wrapped Call http_Post http_Get time_Now time_Since
       time_Sleep history this update emit bindM retM spin phaseA].

(** *** Counting events *)

Lemma count_app p (a b : list Event) :
  count p (a ++ b) = (count p a + count p b)%nat.
Proof. unfold count. rewrite filter_app, length_app. reflexivity. Qed.

Lemma count_polls_get u n : count is_get (polls u n) = n.
Proof. induction n as [|n IH]; [reflexivity|]. unfold count in *. simpl. now rewrite IH. Qed.


Lemma count_polls_other p u n :
  (forall v, p (EvGet v) = false) -> (forall d, p (EvSleep d) = false) ->
  count p (polls u n) = 0%nat.
Proof.
  intros Hg Hs. induction n as [|n IH]; [reflexivity|].
  unfold count in *. simpl. now rewrite Hg, Hs.
Qed.

Lemma after_polls_node n : forall s, node (after_polls n s) = node s.
Proof. induction n as [|n IH]; intros s; simpl; [reflexivity|]. now rewrite IH. Qed.

Lemma after_polls_url n s : url (after_polls n s) = url s.
Proof. unfold url. now rewrite after_polls_node. Qed.

Lemma after_polls_trace n : forall s,
  trace (after_polls n s) = trace s ++ polls (url s) n.
Proof.
  induction n as [|n IH]; intros s; simpl.
  - now rewrite app_nil_r.
  - rewrite IH. unfold slept at 1. cbn [trace].
    rewrite <- !app_assoc. reflexivity.
Qed.

Section Polling.

Variable env : Env.

Lemma waitForA_fetch_fails fuel s :
  fetch_fails env s ->
  waitForA env (S fuel) s
  = Some ((SpecStateFailed, failureAt (node s) msg_fetch), got s).
Proof.
  unfold fetch_fails, answer, url, got. simpl. methods. simpl.
  intros [H | [resp [H Hs]]]; rewrite H; [reflexivity|].
  apply Z.eqb_neq in Hs. rewrite Hs. reflexivity.
Qed.

Lemma waitForA_body_unreadable fuel s :
  body_unreadable env s ->
  waitForA env (S fuel) s
  = Some ((SpecStateFailed, failureAt (node s) msg_read), got s).
Proof.
  unfold body_unreadable, answer, url, got. simpl. methods. simpl.
  intros [resp [H [Hs Hb]]]. rewrite H.
  apply Z.eqb_eq in Hs. rewrite Hs, Hb. reflexivity.
Qed.

Lemma waitForA_body_malformed fuel s :
  body_malformed env s ->
  waitForA env (S fuel) s
  = Some ((SpecStateFailed, failureAt (node s) msg_decode), got s).
Proof.
  unfold body_malformed, answer, url, got. simpl. methods. simpl.
  intros [resp [body [H [Hs [Hb Hd]]]]]. rewrite H.
  apply Z.eqb_eq in Hs. rewrite Hs, Hb, Hd. reflexivity.
Qed.

(** One iteration on a decoded record, as the [switch] decides it. *)
Lemma waitForA_observes fuel s r :
  observes env s r ->
  waitForA env (S fuel) s =
  if State r =? RemoteStateStatePassed then
    Some ((SpecStatePassed, SpecFailure_zero),
          {| node := set_data (Data r) (node s); trace := trace (got s) |})
  else if State r =? RemoteStateStateFailed then
    Some ((SpecStateFailed, failureAt (node s) msg_failed), got s)
  else if State r =? RemoteStateStateDisappeared then
    Some ((SpecStateFailed, failureAt (node s) msg_disappeared), got s)
  else waitForA env fuel (slept s).
Proof.
  unfold observes, answer, url, got, slept. simpl. methods. simpl.
  intros [resp [body [H [Hs [Hb Hd]]]]]. rewrite H.
  apply Z.eqb_eq in Hs. rewrite Hs, Hb, Hd. simpl.
  destruct (State r =? RemoteStateStatePassed); [reflexivity|].
  destruct (State r =? RemoteStateStateFailed); [reflexivity|].
  destruct (State r =? RemoteStateStateDisappeared); reflexivity.
Qed.

Lemma waitForA_keeps_polling fuel s :
  keeps_polling env s ->
  waitForA env (S fuel) s = waitForA env fuel (slept s).
Proof.
  intros [r [Hr [H2 [H3 H4]]]].
  rewrite (waitForA_observes fuel s r Hr).
  apply Z.eqb_neq in H2, H3, H4. rewrite H2, H3, H4. reflexivity.
Qed.

Lemma waitForA_all_pending n : forall fuel s,
  all_pending env n s ->
  waitForA env (n + fuel) s = waitForA env fuel (after_polls n s).
Proof.
  induction n as [|n IH]; intros fuel s H.
  - reflexivity.
  - destruct H as [H1 H2].
    change (S n + fuel)%nat with (S (n + fuel)).
    rewrite (waitForA_keeps_polling _ _ H1). apply IH, H2.
Qed.

Lemma answer_cases s :
  fetch_fails env s \/ body_unreadable env s \/ body_malformed env s \/
  exists r, observes env s r.
Proof.
  unfold fetch_fails, body_unreadable, body_malformed, observes.
  destruct (answer env s) as [|resp] eqn:Ha; [left; left; reflexivity|].
  destruct (Z.eq_dec (StatusCode resp) StatusOK) as [Hs|Hs];
    [|left; right; exists resp; split; [reflexivity | exact Hs]].
  destruct (Body resp) as [body|] eqn:Hb;
    [|right; left; exists resp; repeat split; assumption].
  destruct (env_unmarshal env body) as [r|] eqn:Hd.
  - right; right; right. exists r, resp, body. repeat split; assumption.
  - right; right; left. exists resp, body. repeat split; assumption.
Qed.

(** What a single attempt that returns has done. *)
Lemma waitForA_once s r s1 :
  waitForA env 1 s = Some (r, s1) ->
  trace s1 = trace s ++ [EvGet (url s)] /\
  ((fst r = SpecStateFailed /\ node s1 = node s /\
    exists msg, snd r = failureAt (node s) msg) \/
   (exists rec, observes env s rec /\ State rec = RemoteStateStatePassed /\
                r = (SpecStatePassed, SpecFailure_zero) /\
                node s1 = set_data (Data rec) (node s))).
Proof.
  destruct (answer_cases s) as [H | [H | [H | [rec H]]]].
  - rewrite (waitForA_fetch_fails 0 s H). intros E; inversion E; subst; clear E.
    split; [reflexivity|]. left. cbn. repeat split. eexists; reflexivity.
  - rewrite (waitForA_body_unreadable 0 s H). intros E; inversion E; subst; clear E.
    split; [reflexivity|]. left. cbn. repeat split. eexists; reflexivity.
  - rewrite (waitForA_body_malformed 0 s H). intros E; inversion E; subst; clear E.
    split; [reflexivity|]. left. cbn. repeat split. eexists; reflexivity.
  - rewrite (waitForA_observes 0 s rec H).
    destruct (State rec =? RemoteStateStatePassed) eqn:E2.
    { intros E; inversion E; subst; clear E. split; [reflexivity|]. right.
      exists rec. apply Z.eqb_eq in E2. repeat split; assumption. }
    destruct (State rec =? RemoteStateStateFailed).
    { intros E; inversion E; subst; clear E.
      split; [reflexivity|]. left. cbn. repeat split. eexists; reflexivity. }
    destruct (State rec =? RemoteStateStateDisappeared).
    { intros E; inversion E; subst; clear E.
      split; [reflexivity|]. left. cbn. repeat split. eexists; reflexivity. }
    cbn. discriminate.
Qed.

(** A wait that returns has seen some number of records it does not
    return on, and returned on the attempt after them. *)
Lemma waitForA_returns fuel : forall s r s1,
  waitForA env fuel s = Some (r, s1) ->
  exists n, (n < fuel)%nat /\ all_pending env n s /\
            waitForA env 1 (after_polls n s) = Some (r, s1).
Proof.
  induction fuel as [|fuel IH]; intros s r s1 H; [discriminate H|].
  destruct (answer_cases s) as [Hc | [Hc | [Hc | [rec Hc]]]].
  - exists 0%nat. repeat split; [lia|]. cbn [after_polls].
    rewrite (waitForA_fetch_fails fuel s Hc) in H.
    rewrite (waitForA_fetch_fails 0 s Hc). exact H.
  - exists 0%nat. repeat split; [lia|]. cbn [after_polls].
    rewrite (waitForA_body_unreadable fuel s Hc) in H.
    rewrite (waitForA_body_unreadable 0 s Hc). exact H.
  - exists 0%nat. repeat split; [lia|]. cbn [after_polls].
    rewrite (waitForA_body_malformed fuel s Hc) in H.
    rewrite (waitForA_body_malformed 0 s Hc). exact H.
  - rewrite (waitForA_observes fuel s rec Hc) in H.
    destruct (State rec =? RemoteStateStatePassed) eqn:E2;
      [exists 0%nat; repeat split; [lia|]; cbn [after_polls];
       rewrite (waitForA_observes 0 s rec Hc), E2; exact H|].
    destruct (State rec =? RemoteStateStateFailed) eqn:E3;
      [exists 0%nat; repeat split; [lia|]; cbn [after_polls];
       rewrite (waitForA_observes 0 s rec Hc), E2, E3; exact H|].
    destruct (State rec =? RemoteStateStateDisappeared) eqn:E4;
      [exists 0%nat; repeat split; [lia|]; cbn [after_polls];
       rewrite (waitForA_observes 0 s rec Hc), E2, E3, E4; exact H|].
    destruct (IH _ _ _ H) as [n [Hn [Hp Hw]]].
    exists (S n). split; [lia|]. split; [|exact Hw].
    split; [|exact Hp].
    exists rec. apply Z.eqb_neq in E2, E3, E4. repeat split; assumption.
Qed.

(** A wait that has not returned after [fuel] attempts has only seen
    records it does not return on. *)
Lemma waitForA_spins fuel : forall s,
  waitForA env fuel s = None -> all_pending env fuel s.
Proof.
  induction fuel as [|fuel IH]; intros s H; [exact I|].
  destruct (answer_cases s) as [Hc | [Hc | [Hc | [rec Hc]]]].
  - rewrite (waitForA_fetch_fails fuel s Hc) in H. discriminate H.
  - rewrite (waitForA_body_unreadable fuel s Hc) in H. discriminate H.
  - rewrite (waitForA_body_malformed fuel s Hc) in H. discriminate H.
  - rewrite (waitForA_observes fuel s rec Hc) in H.
    destruct (State rec =? RemoteStateStatePassed) eqn:E2; [discriminate H|].
    destruct (State rec =? RemoteStateStateFailed) eqn:E3; [discriminate H|].
    destruct (State rec =? RemoteStateStateDisappeared) eqn:E4; [discriminate H|].
    split; [|apply IH, H].
    exists rec. apply Z.eqb_neq in E2, E3, E4. repeat split; assumption.
Qed.

End Polling.

Section Running.

Variable env : Env.

(** [Run] is phase A, the gate, phase B, then the deferred function. *)
Lemma Run_eq fuel s :
  Run env fuel s =
  match phaseA env fuel s with
  | None => None
  | Some (r, s1) =>
    if negb (SpecState_eqb (fst r) SpecStatePassed)
    then Some (false, left_at env (env_now env (trace s)) (stored r s1))
    else
      match run env PhaseB (stored r s1) with
      | None => None
      | Some (rB, s2) =>
        Some (SpecState_eqb (fst rB) SpecStatePassed,
              left_at env (env_now env (trace s)) (stored rB s2))
      end
  end.
Proof.
  cbv [Run phaseA bindM retM this update time_Now time_Since history].
  cbn [node trace].
  destruct (ginkgoNode (node s) =? 1).
  - destruct (runA env s) as [[r s1]|]; [|reflexivity].
    cbn [node trace set_result outcome].
    destruct (negb (SpecState_eqb (fst r) SpecStatePassed)); [reflexivity|].
    unfold stored.
    destruct (run env PhaseB _) as [[rB s2]|]; reflexivity.
  - destruct (waitForA env fuel s) as [[r s1]|]; [|reflexivity].
    cbn [node trace set_result outcome].
    destruct (negb (SpecState_eqb (fst r) SpecStatePassed)); [reflexivity|].
    unfold stored.
    destruct (run env PhaseB _) as [[rB s2]|]; reflexivity.
Qed.

(** A runner's [run] always returns; it adds its own entry and one call
    of the wrapped function, and touches no field but [data]. *)
Lemma run_eq which s :
  run env which s
  = Some (env_verdict env (trace (ran env which s)), ran env which s).
Proof.
  unfold ran. methods. cbn [node trace].
  destruct (wrapped (runner_of which (node s))) as [d f|d f]; cbn [node trace].
  - destruct (env_call env _ f _); reflexivity.
  - reflexivity.
Qed.

Lemma ran_trace which s :
  trace (ran env which s)
  = trace s ++ [EvRun which; call_of (wrapped (runner_of which (node s))) (node s)].
Proof.
  unfold ran. methods. cbn [node trace].
  destruct (wrapped (runner_of which (node s))) as [d f|d f]; cbn [node trace call_of].
  - destruct (env_call env _ f _); cbn [trace]; rewrite <- app_assoc; reflexivity.
  - rewrite <- app_assoc. destruct d; reflexivity.
Qed.

Lemma ran_node which s :
  node (ran env which s) =
  match wrapped (runner_of which (node s)) with
  | WrapA d bodyA =>
      match env_call env (trace s ++ [EvRun which]) bodyA (done_arg d) with
      | Some b => set_data b (node s)
      | None => node s
      end
  | WrapB _ _ => node s
  end.
Proof.
  unfold ran. methods. cbn [node trace].
  destruct (wrapped (runner_of which (node s))) as [d f|d f]; cbn [node trace].
  - destruct (env_call env _ f _); reflexivity.
  - reflexivity.
Qed.

(** Whatever [run] does to the node, it is an assignment to [data] at
    most. *)
Lemma ran_keeps which s :
  exists d, node (ran env which s) = set_data d (node s).
Proof.
  rewrite ran_node.
  destruct (wrapped _) as [d f|d f]; [destruct (env_call _ _ _ _)|].
  - eexists; reflexivity.
  - exists (data (node s)). destruct (node s); reflexivity.
  - exists (data (node s)). destruct (node s); reflexivity.
Qed.

Lemma runA_eq s :
  runA env s =
  let sA := ran env PhaseA s in
  let r := env_verdict env (trace sA) in
  Some (r, if totalGinkgoNodes (node sA) >? 1 then published env (fst r) sA else sA).
Proof.
  unfold runA. unfold bindM at 1. rewrite run_eq.
  cbv zeta. destruct (env_verdict env _) as [o f]. methods. cbn [node trace fst].
  destruct (totalGinkgoNodes (node (ran env PhaseA s)) >? 1); [|destruct (ran env PhaseA s); reflexivity].
  unfold published, publication, record_of, url, ToJSON. cbn [node trace].
  destruct (SpecState_eqb o SpecStatePassed); reflexivity.
Qed.

End Running.

(** ** Phase A and the gate *)

Section Gate.

Variable env : Env.

Lemma phaseA_producer fuel s :
  ginkgoNode (node s) = 1 -> phaseA env fuel s = runA env s.
Proof. unfold phaseA. intros ->. reflexivity. Qed.

Lemma phaseA_follower fuel s :
  ginkgoNode (node s) <> 1 -> phaseA env fuel s = waitForA env fuel s.
Proof. unfold phaseA. intros H. apply Z.eqb_neq in H. now rewrite H. Qed.

Lemma Run_gate_closed fuel s r s1 :
  phaseA env fuel s = Some (r, s1) ->
  fst r <> SpecStatePassed ->
  Run env fuel s
  = Some (false, left_at env (env_now env (trace s)) (stored r s1)).
Proof.
  intros H Hn. rewrite Run_eq, H.
  apply SpecState_eqb_neq in Hn. now rewrite Hn.
Qed.

Lemma Run_gate_open fuel s r s1 :
  phaseA env fuel s = Some (r, s1) ->
  fst r = SpecStatePassed ->
  Run env fuel s =
  let s2 := ran env PhaseB (stored r s1) in
  let rB := env_verdict env (trace s2) in
  Some (SpecState_eqb (fst rB) SpecStatePassed,
        left_at env (env_now env (trace s)) (stored rB s2)).
Proof.
  intros H Hp. rewrite Run_eq, H, Hp. cbn [SpecState_eqb negb].
  rewrite run_eq. reflexivity.
Qed.

(** What phase A adds to the trace never belongs to phase B. *)
Lemma phaseA_added fuel s r s1 :
  phaseA env fuel s = Some (r, s1) ->
  exists tr, added s s1 tr /\
             count (is_run PhaseB) tr = 0%nat /\
             (forall d f, wrapped (runnerA (node s)) = WrapA d f ->
                          count (is_call PhaseB) tr = 0%nat).
Proof.
  unfold phaseA, added. destruct (ginkgoNode (node s) =? 1).
  - rewrite runA_eq. cbv zeta. intros E; inversion E; subst; clear E.
    destruct (ran_keeps env PhaseA s) as [d0 Hk].
    destruct (totalGinkgoNodes (node (ran env PhaseA s)) >? 1).
    + unfold published. cbn [trace]. rewrite ran_trace, <- app_assoc.
      eexists; split; [reflexivity|]. cbn [runner_of]. split.
      * destruct (wrapped (runnerA (node s))) as [[|] ?|[|] ?]; reflexivity.
      * intros d f ->. destruct d; reflexivity.
    + rewrite ran_trace. eexists; split; [reflexivity|]. cbn [runner_of]. split.
      * destruct (wrapped (runnerA (node s))) as [[|] ?|[|] ?]; reflexivity.
      * intros d f ->. destruct d; reflexivity.
  - intros H. apply waitForA_returns in H. destruct H as [n [_ [_ Hw]]].
    apply waitForA_once in Hw. destruct Hw as [Ht _].
    rewrite Ht, after_polls_trace, after_polls_url, <- app_assoc.
    eexists; split; [reflexivity|]. split; [|intros _ _ _].
    + rewrite count_app, count_polls_other by reflexivity. reflexivity.
    + rewrite count_app, count_polls_other by reflexivity. reflexivity.
Qed.

End Gate.

(** ** The properties of the specification *)

Import Example_world.

(** C1: whenever phase A (run locally on node 1, or waited for on a
    follower) ends with an outcome other than Passed, [Run] returns false,
    never enters runner B (nor, on a node the constructor built, the
    consumer), adds nothing to what phase A did, and leaves phase A's
    outcome and failure in the node. *)
Theorem failed_phaseA_stops_Run (env : Env) (fuel : nat) (s s1 : St)
    (o : SpecState) (f : SpecFailure) :
  phaseA env fuel s = Some ((o, f), s1) ->
  o <> SpecStatePassed ->
  exists s' tr,
    Run env fuel s = Some (false, s') /\
    outcome (node s') = o /\
    failure (node s') = f /\
    trace s' = trace s1 /\
    added s s' tr /\
    count (is_run PhaseB) tr = 0%nat /\
    (forall d fn, wrapped (runnerA (node s)) = WrapA d fn ->
                  count (is_call PhaseB) tr = 0%nat).
Proof.
  intros HA Hneq.
  destruct (phaseA_added _ _ _ _ _ HA) as [tr [Hadd [Hrun Hcall]]].
  exists (left_at env (env_now env (trace s)) (stored (o, f) s1)), tr.
  split; [exact (Run_gate_closed _ _ _ _ _ HA Hneq)|].
  repeat split; assumption.
Qed.

Lemma failed_phaseA_stops_Run_witness :
  exists s' tr,
    Run (world SpecStateFailed 1 GetError) 2 (start 2 3) = Some (false, s') /\
    outcome (node s') = SpecStateFailed /\
    failure (node s') = failureAt (fresh 2 3) "Failed to fetch BeforeSuite state" /\
    trace s' = trace (got (slept (start 2 3))) /\
    added (start 2 3) s' tr /\
    count (is_run PhaseB) tr = 0%nat /\
    (forall d fn, wrapped (runnerA (node (start 2 3))) = WrapA d fn ->
                  count (is_call PhaseB) tr = 0%nat).
Proof.
  apply (failed_phaseA_stops_Run (world SpecStateFailed 1 GetError) 2
           (start 2 3) (got (slept (start 2 3)))).
  - reflexivity.
  - discriminate.
Defined.



Lemma Pending_and_Invalid_keep_polling (env : Env) (s : St) (r : RemoteState) :
  observes env s r ->
  State r = RemoteStateStateInvalid \/ State r = RemoteStateStatePending ->
  keeps_polling env s.
Proof.
  intros Ho Hs. exists r. split; [exact Ho|].
  unfold RemoteStateStateInvalid, RemoteStateStatePending,
    RemoteStateStatePassed, RemoteStateStateFailed,
    RemoteStateStateDisappeared in *.
  repeat split; lia.
Qed.

(** A follower whose wait ends in a failure built by [failureAt]: [Run]
    returns false right after the GET that ended the wait. *)
Lemma follower_wait_failed (env : Env) (n fuel : nat) (s : St) (msg : string) :
  all_pending env n s ->
  waitForA env (S fuel) (after_polls n s)
  = Some ((SpecStateFailed, failureAt (node s) msg), got (after_polls n s)) ->
  ginkgoNode (node s) <> 1 ->
  exists s',
    Run env (n + S fuel) s = Some (false, s') /\
    trace s' = trace s ++ polls (url s) n ++ [EvGet (url s)] /\
    outcome (node s') = SpecStateFailed /\
    failure (node s') = failureAt (node s) msg /\
    data (node s') = data (node s).
Proof.
  intros Hp Hw Hf.
  assert (HA : phaseA env (n + S fuel) s
               = Some ((SpecStateFailed, failureAt (node s) msg),
                       got (after_polls n s))).
  { rewrite (phaseA_follower _ _ _ Hf), (waitForA_all_pending _ _ _ _ Hp). exact Hw. }
  eexists. split; [apply (Run_gate_closed _ _ _ _ _ HA); discriminate|].
  cbn [left_at stored got node trace set_runTime set_result outcome failure data fst snd].
  rewrite after_polls_trace, after_polls_url, after_polls_node, <- app_assoc.
  repeat split.
Qed.

(** C5: on a follower, a GET that fails or answers with a status other
    than 200 ends the wait at once with outcome Failed and the message
    "Failed to fetch BeforeSuite state"; a body that cannot be read ends it
    with "Failed to read BeforeSuite state"; a body that does not decode
    ends it with "Failed to decode BeforeSuite state".  This holds for the
    first attempt and for an attempt after any number of records the loop
    does not return on.  The failure carries runner A's location, component
    type and index, and [Run] then returns false with no further event: no
    other GET, and runner B is not entered. *)
Theorem hard_error_ends_the_wait (env : Env) (n fuel : nat) (s : St) :
  all_pending env n s ->
  let last := after_polls n s in
  (fetch_fails env last ->
   waitForA env (n + S fuel) s
   = Some ((SpecStateFailed, failureAt (node s) "Failed to fetch BeforeSuite state"),
           got last)) /\
  (body_unreadable env last ->
   waitForA env (n + S fuel) s
   = Some ((SpecStateFailed, failureAt (node s) "Failed to read BeforeSuite state"),
           got last)) /\
  (body_malformed env last ->
   waitForA env (n + S fuel) s
   = Some ((SpecStateFailed, failureAt (node s) "Failed to decode BeforeSuite state"),
           got last)) /\
  (forall msg,
     Message (failureAt (node s) msg) = msg /\
     Location (failureAt (node s) msg) = codeLocation (runnerA (node s)) /\
     ComponentType (failureAt (node s) msg) = nodeType (runnerA (node s)) /\
     ComponentIndex (failureAt (node s) msg) = componentIndex (runnerA (node s)) /\
     ComponentCodeLocation (failureAt (node s) msg) = codeLocation (runnerA (node s))) /\
  (ginkgoNode (node s) <> 1 ->
   forall msg,
     (fetch_fails env last /\ msg = "Failed to fetch BeforeSuite state") \/
     (body_unreadable env last /\ msg = "Failed to read BeforeSuite state") \/
     (body_malformed env last /\ msg = "Failed to decode BeforeSuite state") ->
     exists s',
       Run env (n + S fuel) s = Some (false, s') /\
       trace s' = trace s ++ polls (url s) n ++ [EvGet (url s)] /\
       count (is_run PhaseB) (polls (url s) n ++ [EvGet (url s)]) = 0%nat /\
       count (is_call PhaseB) (polls (url s) n ++ [EvGet (url s)]) = 0%nat /\
       outcome (node s') = SpecStateFailed /\
       failure (node s') = failureAt (node s) msg).
Proof.
  intros Hp last.
  assert (Hn : node last = node s) by apply after_polls_node.
  assert (H1 : fetch_fails env last ->
               waitForA env (S fuel) last
               = Some ((SpecStateFailed, failureAt (node s) msg_fetch), got last)).
  { intros H. rewrite <- Hn. apply waitForA_fetch_fails, H. }
  assert (H2 : body_unreadable env last ->
               waitForA env (S fuel) last
               = Some ((SpecStateFailed, failureAt (node s) msg_read), got last)).
  { intros H. rewrite <- Hn. apply waitForA_body_unreadable, H. }
  assert (H3 : body_malformed env last ->
               waitForA env (S fuel) last
               = Some ((SpecStateFailed, failureAt (node s) msg_decode), got last)).
  { intros H. rewrite <- Hn. apply waitForA_body_malformed, H. }
  split; [|split; [|split; [|split]]].
  - intros H. rewrite (waitForA_all_pending _ _ _ _ Hp). apply H1, H.
  - intros H. rewrite (waitForA_all_pending _ _ _ _ Hp). apply H2, H.
  - intros H. rewrite (waitForA_all_pending _ _ _ _ Hp). apply H3, H.
  - intros msg. repeat split.
  - intros Hf msg Hcase.
    assert (Hw : waitForA env (S fuel) last
                 = Some ((SpecStateFailed, failureAt (node s) msg), got last)).
    { destruct Hcase as [[H ->] | [[H ->] | [H ->]]]; auto. }
    destruct (follower_wait_failed _ _ _ _ _ Hp Hw Hf) as [s' [HR [Ht [Ho [Hfl _]]]]].
    exists s'. repeat split; try assumption.
    + rewrite count_app, count_polls_other by reflexivity. reflexivity.
    + rewrite count_app, count_polls_other by reflexivity. reflexivity.
Qed.

Lemma hard_error_ends_the_wait_witness :
  waitForA (world SpecStatePassed 1 GetError) 2 (start 2 3)
  = Some ((SpecStateFailed,
           failureAt (fresh 2 3) "Failed to fetch BeforeSuite state"),
          got (slept (start 2 3))).
Proof.
  refine (proj1 (hard_error_ends_the_wait (world SpecStatePassed 1 GetError)
                   1 0 (start 2 3) _) _).
  - split; [|exact I].
    exists {| Data := []; State := RemoteStateStatePending |}.
    split; [|repeat split; discriminate].
    eexists; eexists. repeat split; reflexivity.
  - left. reflexivity.
Defined.



(** C10: when [Run] returns, [Passed()] gives the value [Run] returned;
    that value is true exactly when the outcome left in the node is
    Passed, and then phase A ended Passed and runner B reported Passed. *)
Theorem Run_returns_what_Passed_reports (env : Env) (fuel : nat) (s s' : St)
    (b : bool) :
  Run env fuel s = Some (b, s') ->
  Passed (node s') = b /\
  (b = true <-> outcome (node s') = SpecStatePassed) /\
  (b = true ->
   exists fA sA fB sB,
     phaseA env fuel s = Some ((SpecStatePassed, fA), sA) /\
     run env PhaseB (stored (SpecStatePassed, fA) sA)
     = Some ((SpecStatePassed, fB), sB)).
Proof.
  rewrite Run_eq.
  destruct (phaseA env fuel s) as [[[oA fA] sA]|] eqn:HA; [|discriminate].
  cbn [fst].
  destruct (SpecState_eqb oA SpecStatePassed) eqn:EA; cbn [negb].
  - apply SpecState_eqb_eq in EA. subst oA.
    rewrite run_eq. remember (ran env PhaseB (stored (SpecStatePassed, fA) sA)) as sB eqn:HsB.
    destruct (env_verdict env (trace sB)) as [oB fB] eqn:HB.
    intros E; inversion E; subst b s'; clear E.
    unfold Passed.
    cbn [left_at stored node set_runTime set_result outcome fst snd].
    split; [reflexivity|]. split.
    + apply SpecState_eqb_eq.
    + intros Hb. apply SpecState_eqb_eq in Hb. subst oB.
      exists fA, sA, fB, sB. split; [reflexivity|].
      rewrite run_eq, <- HsB, HB. reflexivity.
  - intros E; inversion E; subst b s'; clear E.
    unfold Passed.
    cbn [left_at stored node set_runTime set_result outcome fst snd].
    split; [exact EA|]. split.
    + split; [discriminate|]. intros H. apply SpecState_eqb_eq in H. congruence.
    + discriminate.
Qed.

Lemma Run_returns_what_Passed_reports_witness :
  exists s',
    Run (world SpecStatePassed 0 GetError) 0 (start 1 1) = Some (true, s') /\
    Passed (node s') = true /\
    (true = true <-> outcome (node s') = SpecStatePassed).
Proof.
  eexists. split; [reflexivity|].
  refine ((fun H => conj (proj1 H) (proj1 (proj2 H)))
            (Run_returns_what_Passed_reports
               (world SpecStatePassed 0 GetError) 0 (start 1 1) _ true _)).
  reflexivity.
Defined.

(** ** The whole trace of [Run] *)

(** On node 1 [Run] always returns.  Its trace is runner A with its call,
    the POST when there are other nodes, and, when runner A reported
    Passed, runner B with its call. *)
Lemma Run_producer (env : Env) (fuel : nat) (s : St) :
  ginkgoNode (node s) = 1 ->
  let sA := ran env PhaseA s in
  let rA := env_verdict env (trace sA) in
  let post := if totalGinkgoNodes (node s) >? 1
              then [publication env (fst rA) sA] else [] in
  exists b s' trB,
    Run env fuel s = Some (b, s') /\
    trace s' = trace s
               ++ [EvRun PhaseA; call_of (wrapped (runnerA (node s))) (node s)]
               ++ post ++ trB /\
    (forall d f, wrapped (runnerB (node s)) = WrapB d f ->
                 data (node s') = data (node sA)) /\
    ((fst rA <> SpecStatePassed /\ trB = [] /\ b = false) \/
     (fst rA = SpecStatePassed /\
      trB = [EvRun PhaseB; call_of (wrapped (runnerB (node s))) (node sA)])).
Proof.
  intros H1 sA rA post.
  destruct (ran_keeps env PhaseA s) as [dA HkA]. fold sA in HkA.
  assert (HA : phaseA env fuel s
               = Some (rA, if totalGinkgoNodes (node s) >? 1
                           then published env (fst rA) sA else sA)).
  { rewrite (phaseA_producer _ _ _ H1), runA_eq. cbv zeta. fold sA. fold rA.
    rewrite HkA. reflexivity. }
  set (sP := if totalGinkgoNodes (node s) >? 1
             then published env (fst rA) sA else sA) in *.
  assert (HnP : node sP = node sA).
  { unfold sP. destruct (_ >? 1); reflexivity. }
  assert (HtP : trace sP = trace s
                ++ [EvRun PhaseA; call_of (wrapped (runnerA (node s))) (node s)]
                ++ post).
  { unfold sP, post. destruct (_ >? 1); cbn [published trace].
    - unfold sA at 1. rewrite ran_trace, <- app_assoc. reflexivity.
    - unfold sA. rewrite ran_trace. reflexivity. }
  destruct (SpecState_eqb (fst rA) SpecStatePassed) eqn:E.
  - apply SpecState_eqb_eq in E.
    rewrite (Run_gate_open _ _ _ _ _ HA E). cbv zeta.
    do 3 eexists. split; [reflexivity|].
    cbn [left_at stored node trace set_runTime set_result data].
    rewrite ran_trace.
    destruct (ran_keeps env PhaseB (stored rA sP)) as [dB HkB].
    rewrite ran_node.
    cbn [stored node trace runner_of set_result runnerB data].
    rewrite HtP, HnP, HkA. cbn [set_data runnerB data].
    split; [rewrite <- !app_assoc; reflexivity|].
    split; [|right; split; [exact E | reflexivity]].
    intros d f ->. reflexivity.
  - apply SpecState_eqb_neq in E.
    rewrite (Run_gate_closed _ _ _ _ _ HA E).
    do 3 eexists. split; [reflexivity|].
    cbn [left_at stored node trace set_runTime set_result data].
    rewrite HtP, HnP. split; [rewrite app_nil_r; reflexivity|].
    split; [reflexivity|]. left. repeat split. exact E.
Qed.

(** A follower's [Run] that returns has polled: some records it did not
    return on, one last GET, and, when that GET showed Passed, runner B
    with its call. *)
Lemma Run_follower (env : Env) (fuel : nat) (s s' : St) (b : bool) :
  ginkgoNode (node s) <> 1 ->
  Run env fuel s = Some (b, s') ->
  exists n trB,
    (n < fuel)%nat /\
    all_pending env n s /\
    trace s' = trace s ++ polls (url s) n ++ [EvGet (url s)] ++ trB /\
    ((trB = [] /\ b = false) \/
     (exists rec,
        observes env (after_polls n s) rec /\
        State rec = RemoteStateStatePassed /\
        trB = [EvRun PhaseB;
               call_of (wrapped (runnerB (node s))) (set_data (Data rec) (node s))])).
Proof.
  intros Hf. rewrite Run_eq, (phaseA_follower _ _ _ Hf).
  destruct (waitForA env fuel s) as [[r sW]|] eqn:HW; [|discriminate].
  apply waitForA_returns in HW. destruct HW as [n [Hn [Hp Hw]]].
  apply waitForA_once in Hw. destruct Hw as [Ht Hcase].
  rewrite after_polls_trace, after_polls_url, after_polls_node in *.
  destruct Hcase as [[Ho _] | [rec [Hobs [Hst [Hr HnW]]]]].
  - rewrite Ho. cbn [SpecState_eqb negb].
    intros E; inversion E; subst b s'; clear E.
    exists n, []. split; [exact Hn|]. split; [exact Hp|].
    cbn [left_at stored trace]. rewrite Ht, <- app_assoc.
    split; [reflexivity|]. left. split; reflexivity.
  - subst r. cbn [fst SpecState_eqb negb]. rewrite run_eq.
    intros E; inversion E; subst b s'; clear E.
    exists n. eexists. split; [exact Hn|]. split; [exact Hp|].
    cbn [left_at stored trace]. rewrite ran_trace.
    cbn [stored node trace runner_of]. rewrite Ht, HnW.
    cbn [set_result set_data runnerB].
    split; [rewrite <- !app_assoc; reflexivity|].
    right. exists rec. repeat split; try assumption.
Qed.

(** A follower's [Run] that has not returned is still polling. *)
Lemma Run_follower_spins (env : Env) (fuel : nat) (s : St) :
  ginkgoNode (node s) <> 1 ->
  Run env fuel s = None ->
  all_pending env fuel s.
Proof.
  intros Hf. rewrite Run_eq, (phaseA_follower _ _ _ Hf).
  destruct (waitForA env fuel s) as [[r sW]|] eqn:HW;
    [|intros _; apply waitForA_spins, HW].
  destruct (negb _); [discriminate|]. rewrite run_eq. discriminate.
Qed.

(** C2: on a node the constructor built, [Run] with ordinal 1 always
    returns, enters runner A exactly once, calls the producer exactly once,
    sends no GET and sends one POST when there are other nodes and none
    otherwise; [Run] with any other ordinal never enters runner A, never
    calls the producer, never POSTs, and sends at least one GET; as long
    as it has not returned it has done nothing but GET and sleep. *)
Theorem only_node_1_produces (env : Env) (fuel : nat) (s : St)
    (bodyA bodyB : Iface) :
  built_from bodyA bodyB (node s) ->
  (ginkgoNode (node s) = 1 ->
   exists b s' tr,
     Run env fuel s = Some (b, s') /\
     added s s' tr /\
     count (is_run PhaseA) tr = 1%nat /\
     count (is_call PhaseA) tr = 1%nat /\
     count is_get tr = 0%nat /\
     count is_post tr = (if totalGinkgoNodes (node s) >? 1 then 1 else 0)%nat) /\
  (ginkgoNode (node s) <> 1 ->
   forall b s',
     Run env fuel s = Some (b, s') ->
     exists tr,
       added s s' tr /\
       count (is_run PhaseA) tr = 0%nat /\
       count (is_call PhaseA) tr = 0%nat /\
       count is_post tr = 0%nat /\
       (1 <= count is_get tr)%nat) /\
  (ginkgoNode (node s) <> 1 ->
   Run env fuel s = None ->
   all_pending env fuel s /\
   trace (after_polls fuel s) = trace s ++ polls (url s) fuel /\
   count (is_run PhaseA) (polls (url s) fuel) = 0%nat /\
   count (is_call PhaseA) (polls (url s) fuel) = 0%nat /\
   count is_post (polls (url s) fuel) = 0%nat).
Proof.
  intros [[dA HwA] [dB HwB]]. split; [|split].
  - intros H1.
    destruct (Run_producer env fuel s H1) as [b [s' [trB [HR [Ht [_ Hcase]]]]]].
    exists b, s'. eexists. split; [exact HR|]. split; [exact Ht|].
    rewrite HwA, HwB in *. rewrite !count_app.
    destruct Hcase as [[_ [-> _]] | [_ ->]];
      destruct (totalGinkgoNodes (node s) >? 1); repeat split; reflexivity.
  - intros Hf b s' HR.
    destruct (Run_follower env fuel s s' b Hf HR) as [n [trB [_ [_ [Ht Hcase]]]]].
    eexists. split; [exact Ht|].
    rewrite HwB in *. rewrite !count_app, count_polls_get.
    rewrite !count_polls_other by reflexivity.
    destruct Hcase as [[-> _] | [rec [_ [_ ->]]]]; repeat split;
      try reflexivity; cbn; lia.
  - intros Hf HN. split; [exact (Run_follower_spins env fuel s Hf HN)|].
    split; [apply after_polls_trace|].
    rewrite !count_polls_other by reflexivity. repeat split.
Qed.

Lemma only_node_1_produces_witness :
  let env := world SpecStatePassed 0 GetError in
  exists b s' tr,
    Run env 0 (start 1 3) = Some (b, s') /\
    added (start 1 3) s' tr /\
    count (is_run PhaseA) tr = 1%nat /\
    count (is_call PhaseA) tr = 1%nat /\
    count is_get tr = 0%nat /\
    count is_post tr = 1%nat.
Proof.
  intros env.
  refine (proj1 (only_node_1_produces env 0 (start 1 3) producer consumer _) _).
  - split; eexists; reflexivity.
  - reflexivity.
Defined.

(** C3: with a single node (ordinal 1 of 1) [Run] always returns and sends
    neither a POST nor a GET; runner A is entered once, locally, and runner
    B is entered (once) exactly when runner A reported Passed. *)
Theorem single_node_stays_local (env : Env) (fuel : nat) (s : St) :
  totalGinkgoNodes (node s) = 1 ->
  ginkgoNode (node s) = 1 ->
  exists b s' tr oA fA sA,
    Run env fuel s = Some (b, s') /\
    added s s' tr /\
    count is_post tr = 0%nat /\
    count is_get tr = 0%nat /\
    run env PhaseA s = Some ((oA, fA), sA) /\
    count (is_run PhaseA) tr = 1%nat /\
    (count (is_run PhaseB) tr <= 1)%nat /\
    (count (is_run PhaseB) tr = 1%nat <-> oA = SpecStatePassed).
Proof.
  intros Ht H1.
  destruct (Run_producer env fuel s H1) as [b [s' [trB [HR [Htr [_ Hcase]]]]]].
  rewrite Ht in Htr. change (1 >? 1) with false in Htr. cbv iota in Htr.
  destruct (env_verdict env (trace (ran env PhaseA s))) as [oA fA] eqn:HV.
  exists b, s'. eexists. exists oA, fA, (ran env PhaseA s).
  split; [exact HR|]. split; [exact Htr|].
  rewrite run_eq, HV. cbn [fst] in Hcase.
  assert (Hc : forall w n, is_post (call_of w n) = false /\
                           is_get (call_of w n) = false /\
                           is_run PhaseA (call_of w n) = false /\
                           is_run PhaseB (call_of w n) = false).
  { intros [d f|d f] n; repeat split. }
  destruct (Hc (wrapped (runnerA (node s))) (node s)) as [Ha1 [Ha2 [Ha3 Ha4]]].
  destruct (Hc (wrapped (runnerB (node s))) (node (ran env PhaseA s)))
    as [Hb1 [Hb2 [Hb3 Hb4]]].
  destruct Hcase as [[Hne [-> _]] | [He ->]]; unfold count; cbn [app filter is_post is_get is_run];
    rewrite ?Ha1, ?Ha2, ?Ha3, ?Ha4, ?Hb1, ?Hb2, ?Hb3, ?Hb4; cbn [List.length];
    repeat split; try reflexivity; try lia; try congruence; try discriminate.
Qed.

Lemma single_node_stays_local_witness :
  exists b s' tr oA fA sA,
    Run (world SpecStatePassed 0 GetError) 0 (start 1 1) = Some (b, s') /\
    added (start 1 1) s' tr /\
    count is_post tr = 0%nat /\
    count is_get tr = 0%nat /\
    run (world SpecStatePassed 0 GetError) PhaseA (start 1 1) = Some ((oA, fA), sA) /\
    count (is_run PhaseA) tr = 1%nat /\
    (count (is_run PhaseB) tr <= 1)%nat /\
    (count (is_run PhaseB) tr = 1%nat <-> oA = SpecStatePassed).
Proof.
  apply (single_node_stays_local (world SpecStatePassed 0 GetError) 0 (start 1 1));
    reflexivity.
Defined.




Example producer_publishes_Failed_after_a_timeout :
  runA (world SpecStateTimedOut 0 GetError) (start 1 3)
  = Some ((SpecStateTimedOut, SpecFailure_zero),
          {| node := set_data payload (fresh 1 3);
             trace := [EvRun PhaseA; EvCall PhaseA producer [];
                       EvPost "http://127.0.0.1:7788/BeforeSuiteState"
                              "application/json"
                              (Byte.x03 :: payload) true] |}).
Proof. reflexivity. Qed.

(** C7: the closure of [wrapA] stores the bytes the producer returned in
    [node.data]; the closure of [wrapB] calls the consumer with the value
    [node.data] has at that moment.  A follower that decodes a record with
    status Passed and data [P] stores [P] in [node.data] and ends its wait
    with outcome Passed and the empty failure, and its [Run] then calls the
    consumer with [P].  On the producer, when the producer function
    returned [P] and runner A reported Passed, [Run] calls the consumer
    with [P] as well. *)
Theorem payload_reaches_the_consumer (env : Env) (s : St) (dB : bool)
    (bodyB : Iface) :
  wrapped (runnerB (node s)) = WrapB dB bodyB ->
  (forall s0 dA bodyA P,
     env_call env (trace s0) bodyA (done_arg dA) = Some P ->
     call_wrapped env (WrapA dA bodyA) s0
     = Some (tt, {| node := set_data P (node s0);
                    trace := trace s0
                             ++ [EvCall PhaseA bodyA (done_arg dA)] |})) /\
  (forall s0,
     call_wrapped env (WrapB dB bodyB) s0
     = Some (tt, {| node := node s0;
                    trace := trace s0
                             ++ [EvCall PhaseB bodyB (VBytes (data (node s0)) :: done_arg dB)] |})) /\
  (ginkgoNode (node s) <> 1 ->
   forall n fuel r,
     all_pending env n s ->
     observes env (after_polls n s) r ->
     State r = RemoteStateStatePassed ->
     waitForA env (n + S fuel) s
     = Some ((SpecStatePassed, SpecFailure_zero),
             {| node := set_data (Data r) (node s);
                trace := trace (got (after_polls n s)) |}) /\
     exists b s',
       Run env (n + S fuel) s = Some (b, s') /\
       trace s' = trace s ++ polls (url s) n
                  ++ [EvGet (url s); EvRun PhaseB;
                      EvCall PhaseB bodyB (VBytes (Data r) :: done_arg dB)] /\
       data (node s') = Data r) /\
  (ginkgoNode (node s) = 1 ->
   forall fuel dA bodyA P,
     wrapped (runnerA (node s)) = WrapA dA bodyA ->
     env_call env (trace s ++ [EvRun PhaseA]) bodyA (done_arg dA)
     = Some P ->
     data (node (ran env PhaseA s)) = P /\
     (fst (env_verdict env (trace (ran env PhaseA s))) = SpecStatePassed ->
      exists b s' post,
        Run env fuel s = Some (b, s') /\
        trace s' = trace s
                   ++ [EvRun PhaseA; EvCall PhaseA bodyA (done_arg dA)]
                   ++ post
                   ++ [EvRun PhaseB; EvCall PhaseB bodyB (VBytes P :: done_arg dB)] /\
        count (is_call PhaseB) post = 0%nat /\
        data (node s') = P)).
Proof.
  intros HwB. split; [|split; [|split]].
  - intros s0 dA bodyA P Hc. unfold done_arg in *. methods. cbn [node trace].
    rewrite Hc. reflexivity.
  - intros s0. methods. cbn [node trace]. destruct dB; reflexivity.
  - intros Hf n fuel r Hp Ho Hst.
    assert (HW : waitForA env (n + S fuel) s
                 = Some ((SpecStatePassed, SpecFailure_zero),
                         {| node := set_data (Data r) (node s);
                            trace := trace (got (after_polls n s)) |})).
    { rewrite (waitForA_all_pending _ _ _ _ Hp).
      rewrite (waitForA_observes env fuel _ r Ho), Hst, after_polls_node.
      reflexivity. }
    split; [exact HW|].
    rewrite <- (phaseA_follower env _ _ Hf) in HW.
    rewrite (Run_gate_open _ _ _ _ _ HW eq_refl). cbv zeta.
    do 2 eexists. split; [reflexivity|].
    cbn [left_at stored node trace set_runTime set_result data].
    rewrite ran_trace, ran_node.
    cbn [stored node trace runner_of set_result set_data runnerB got].
    rewrite HwB, after_polls_trace, after_polls_url.
    cbn [call_of set_data data]. rewrite <- !app_assoc. split; reflexivity.
  - intros H1 fuel dA bodyA P HwA Hc.
    assert (HdA : data (node (ran env PhaseA s)) = P).
    { rewrite ran_node. cbn [runner_of]. rewrite HwA, Hc. reflexivity. }
    split; [exact HdA|]. intros Hpass.
    destruct (Run_producer env fuel s H1) as [b [s' [trB [HR [Htr [Hd Hcase]]]]]].
    destruct Hcase as [[Hne _] | [_ ->]]; [contradiction|].
    exists b, s'. eexists. split; [exact HR|].
    rewrite (Hd _ _ HwB), HdA. rewrite HwA, HwB in Htr. cbn [call_of] in Htr.
    rewrite HdA in Htr.
    split; [exact Htr|]. split; [|reflexivity].
    destruct (totalGinkgoNodes (node s) >? 1); reflexivity.
Qed.

Lemma payload_reaches_the_consumer_witness :
  let env := world SpecStatePassed 1 (answer_with {| Data := payload; State := 2 |}) in
  exists b s',
    Run env 2 (start 2 3) = Some (b, s') /\
    trace s' = trace (start 2 3) ++ polls (url (start 2 3)) 1
               ++ [EvGet (url (start 2 3)); EvRun PhaseB;
                   EvCall PhaseB consumer [VBytes payload; VDone]] /\
    data (node s') = payload.
Proof.
  intros env.
  refine (proj2 (proj1 (proj2 (proj2
    (payload_reaches_the_consumer env (start 2 3) true consumer _)))
    _ 1%nat 0%nat {| Data := payload; State := 2 |} _ _ _)).
  - reflexivity.
  - discriminate.
  - split; [|exact I].
    exists {| Data := []; State := RemoteStateStatePending |}.
    split; [|repeat split; discriminate].
    eexists; eexists. repeat split; reflexivity.
  - eexists; eexists. repeat split; reflexivity.
  - reflexivity.
Defined.

(** ** The constructor and its two checks *)

Lemma Kind_of_underlying t : reflect.Kind_of t = reflect.Kind_of (underlying t).
Proof. induction t; cbn; auto. Qed.

Lemma params_underlying t : reflect.params t = reflect.params (underlying t).
Proof. induction t; cbn; auto. Qed.

Lemma underlying_not_named t name u : underlying t <> reflect.TNamed name u.
Proof. induction t; cbn; try discriminate; auto. Qed.

Lemma kind_Interface t :
  reflect.Kind_eqb (reflect.Kind_of t) reflect.Interface = is_interface t.
Proof. unfold is_interface. induction t; cbn; auto. Qed.

Lemma kind_Uint8 t :
  reflect.Kind_eqb (reflect.Kind_of t) reflect.Uint8 = is_uint8 t.
Proof. unfold is_uint8. induction t; cbn; auto. Qed.

(** The two reflective tests on a parameter or result never panic: [Elem]
    is reached only once the kind is known to have elements. *)
Lemma test_chan_of_interfaces t :
  (kind_is (Ok t) reflect.Chan
   &&& kind_is (reflect.Elem t) reflect.Interface)%R
  = Ok (chan_of_interfaces t).
Proof.
  unfold chan_of_interfaces. induction t; cbn; auto.
  now rewrite kind_Interface.
Qed.

Lemma test_slice_of_uint8 t :
  (kind_is (Ok t) reflect.Slice
   &&& kind_is (reflect.Elem t) reflect.Uint8)%R
  = Ok (slice_of_uint8 t).
Proof.
  unfold slice_of_uint8. induction t; cbn; auto.
  now rewrite kind_Uint8.
Qed.

Lemma andR_true_l x : andR (Ok true) x = x.
Proof. reflexivity. Qed.

Lemma andR_false_l x : andR (Ok false) x = Ok false.
Proof. reflexivity. Qed.

Lemma num_is_length (l : list reflect.Type_) (k : nat) :
  num_is (Ok (Z.of_nat (List.length l))) (Z.of_nat k)
  = Ok (Nat.eqb (List.length l) k).
Proof.
  unfold num_is. cbn [bindR]. f_equal.
  destruct (Nat.eqb_spec (List.length l) k) as [->|Hn].
  - apply Z.eqb_refl.
  - apply Z.eqb_neq. lia.
Qed.

Lemma wrapA_eq t ident :
  wrapA (IVal t ident) =
  if negb (is_func t) then Panic msgA_notfunc
  else if negb (producer_kinds t) then Panic msgA_shape
  else Ok (WrapA (takes 1 t) (IVal t ident)).
Proof.
  unfold wrapA, is_func, producer_kinds, takes.
  cbn [TypeOf Kind deref bindR].
  unfold reflect.NumIn, reflect.NumOut, reflect.In, reflect.Out.
  rewrite Kind_of_underlying, params_underlying.
  destruct (underlying t) as [| | | |ms|d e|e|e|ins outs|name u] eqn:E;
    try reflexivity;
    [|exfalso; exact (underlying_not_named t name u E)].
  cbn [reflect.Kind_of reflect.Kind_eqb negb reflect.params bindR fst snd].
  change (num_is (Ok (Z.of_nat (List.length ins))) 0)
    with (num_is (Ok (Z.of_nat (List.length ins))) (Z.of_nat 0)).
  change (num_is (Ok (Z.of_nat (List.length ins))) 1)
    with (num_is (Ok (Z.of_nat (List.length ins))) (Z.of_nat 1)).
  change (num_is (Ok (Z.of_nat (List.length outs))) 1)
    with (num_is (Ok (Z.of_nat (List.length outs))) (Z.of_nat 1)).
  rewrite !num_is_length.
  destruct ins as [|i [|i2 ins]]; destruct outs as [|o [|o2 outs]];
    cbn [List.length Nat.eqb bindR];
    rewrite ?andR_true_l, ?andR_false_l;
    cbn [bindR orb andb negb];
    try reflexivity.
  all: try change (reflect.index [o] 0) with (Ok o).
  all: try change (reflect.index [i] 0) with (Ok i).
  all: cbn [bindR].
  all: rewrite ?test_chan_of_interfaces, ?test_slice_of_uint8; cbn [bindR].
  all: try destruct (chan_of_interfaces i); try destruct (slice_of_uint8 o);
    reflexivity.
Qed.

Lemma wrapB_eq t ident :
  wrapB (IVal t ident) =
  if negb (is_func t) then Panic msgB_notfunc
  else if negb (consumer_kinds t) then Panic msgB_shape
  else Ok (WrapB (takes 2 t) (IVal t ident)).
Proof.
  unfold wrapB, is_func, consumer_kinds, takes.
  cbn [TypeOf Kind deref bindR].
  unfold reflect.NumIn, reflect.NumOut, reflect.In, reflect.Out.
  rewrite Kind_of_underlying, params_underlying.
  destruct (underlying t) as [| | | |ms|d e|e|e|ins outs|name u] eqn:E;
    try reflexivity;
    [|exfalso; exact (underlying_not_named t name u E)].
  cbn [reflect.Kind_of reflect.Kind_eqb negb reflect.params bindR fst snd].
  change (num_is (Ok (Z.of_nat (List.length outs))) 0)
    with (num_is (Ok (Z.of_nat (List.length outs))) (Z.of_nat 0)).
  change (num_is (Ok (Z.of_nat (List.length ins))) 1)
    with (num_is (Ok (Z.of_nat (List.length ins))) (Z.of_nat 1)).
  change (num_is (Ok (Z.of_nat (List.length ins))) 2)
    with (num_is (Ok (Z.of_nat (List.length ins))) (Z.of_nat 2)).
  rewrite !num_is_length.
  destruct ins as [|i [|j [|k ins]]]; destruct outs as [|o outs];
    cbn [List.length Nat.eqb bindR];
    rewrite ?andR_true_l, ?andR_false_l;
    cbn [bindR orb andb negb];
    try reflexivity.
  all: try change (reflect.index [i] 0) with (Ok i).
  all: try change (reflect.index [i; j] 0) with (Ok i).
  all: try change (reflect.index [i; j] 1) with (Ok j).
  all: cbn [bindR].
  all: rewrite ?test_slice_of_uint8; cbn [bindR].
  all: destruct (slice_of_uint8 i); rewrite ?andR_true_l, ?andR_false_l;
    rewrite ?test_chan_of_interfaces; cbn [bindR orb andb negb];
    try destruct (chan_of_interfaces j); reflexivity.
Qed.

Lemma producer_shape_kinds t ident :
  producer_shape (IVal t ident) = true ->
  is_func t = true /\ producer_kinds t = true.
Proof.
  unfold producer_shape, is_func, producer_kinds.
  destruct t as [| | | |ms|d e|e|e|ins outs|name u]; try discriminate.
  destruct ins as [|i [|i2 ins]]; destruct outs as [|o [|o2 outs]];
    try discriminate; cbn [underlying].
  - destruct o as [| | | |?|? ?|[| | | |?|? ?|?|?|? ?|? ?]|?|? ?|? ?];
      try discriminate. intros _. split; reflexivity.
  - intros H. apply andb_prop in H. destruct H as [Hi Ho]. split; [reflexivity|].
    apply andb_true_intro. split.
    + unfold is_Done in Hi. unfold chan_of_interfaces, is_interface.
      destruct i as [| | | |?|[| |] [| | | |[|? ?]|? ?|?|?|? ?|? ?]|?|?|? ?|? u0];
        try discriminate; try reflexivity.
      destruct u0 as [| | | |?|[| |] [| | | |[|? ?]|? ?|?|?|? ?|? ?]|?|?|? ?|? ?];
        try discriminate; reflexivity.
    + destruct o as [| | | |?|? ?|[| | | |?|? ?|?|?|? ?|? ?]|?|? ?|? ?];
        try discriminate. reflexivity.
Qed.

Lemma consumer_shape_kinds t ident :
  consumer_shape (IVal t ident) = true ->
  is_func t = true /\ consumer_kinds t = true.
Proof.
  unfold consumer_shape, is_func, consumer_kinds.
  destruct t as [| | | |ms|d e|e|e|ins outs|name u]; try discriminate.
  destruct ins as [|i [|j [|k ins]]]; destruct outs as [|o outs];
    try discriminate; cbn [underlying].
  - destruct i as [| | | |?|? ?|[| | | |?|? ?|?|?|? ?|? ?]|?|? ?|? ?];
      try discriminate. intros _. split; reflexivity.
  - intros H. apply andb_prop in H. destruct H as [Hi Hj]. split; [reflexivity|].
    apply andb_true_intro. split.
    + destruct i as [| | | |?|? ?|[| | | |?|? ?|?|?|? ?|? ?]|?|? ?|? ?];
        try discriminate. reflexivity.
    + unfold is_Done in Hj. unfold chan_of_interfaces, is_interface.
      destruct j as [| | | |?|[| |] [| | | |[|? ?]|? ?|?|?|? ?|? ?]|?|?|? ?|? u0];
        try discriminate; try reflexivity.
      destruct u0 as [| | | |?|[| |] [| | | |[|? ?]|? ?|?|?|? ?|? ?]|?|?|? ?|? ?];
        try discriminate; reflexivity.
Qed.

(** C8, as the code has it: for arguments that are not nil,
    [NewCompoundBeforeSuiteNode] panics, before a node exists, with a
    message naming the first argument when the first argument is not a
    function or is not, by kind, a function of no parameter or of one
    channel of interface values that returns one slice of uint8; otherwise
    with a message naming the second argument when the second is not a
    function or is not, by kind, a function of one slice of uint8, or of
    that and a channel of interface values, that returns nothing; and
    otherwise it returns the node.  Every pair of functions of the shapes
    the specification lists passes both tests. *)
Theorem construction_checks_kinds (tA tB : reflect.Type_) (ia ib : nat)
    (loc : CodeLocation) (timeout : Z) (failer : Failer) (g total : Z)
    (host : string) :
  NewCompoundBeforeSuiteNode (IVal tA ia) (IVal tB ib) loc timeout failer g total host
  = (if negb (is_func tA) then Panic msgA_notfunc
     else if negb (producer_kinds tA) then Panic msgA_shape
     else if negb (is_func tB) then Panic msgB_notfunc
     else if negb (consumer_kinds tB) then Panic msgB_shape
     else Ok {| runnerA := newRunner (WrapA (takes 1 tA) (IVal tA ia)) loc timeout
                             failer SpecComponentTypeBeforeSuite 0;
                runnerB := newRunner (WrapB (takes 2 tB) (IVal tB ib)) loc timeout
                             failer SpecComponentTypeBeforeSuite 0;
                ginkgoNode := g;
                totalGinkgoNodes := total;
                syncHost := host;
                data := [];
                outcome := SpecStateInvalid;
                failure := SpecFailure_zero;
                runTime := 0 |}) /\
  (names "first" msgA_notfunc = true /\ names "first" msgA_shape = true /\
   names "second" msgA_notfunc = false /\ names "second" msgA_shape = false) /\
  (names "second" msgB_notfunc = true /\ names "second" msgB_shape = true /\
   names "first" msgB_notfunc = false /\ names "first" msgB_shape = false) /\
  (producer_shape (IVal tA ia) = true ->
   consumer_shape (IVal tB ib) = true ->
   exists n,
     NewCompoundBeforeSuiteNode (IVal tA ia) (IVal tB ib) loc timeout failer g total host
     = Ok n /\
     built_from (IVal tA ia) (IVal tB ib) n).
Proof.
  assert (HN : NewCompoundBeforeSuiteNode (IVal tA ia) (IVal tB ib) loc timeout
                 failer g total host
               = (if negb (is_func tA) then Panic msgA_notfunc
                  else if negb (producer_kinds tA) then Panic msgA_shape
                  else if negb (is_func tB) then Panic msgB_notfunc
                  else if negb (consumer_kinds tB) then Panic msgB_shape
                  else Ok {| runnerA := newRunner (WrapA (takes 1 tA) (IVal tA ia))
                                          loc timeout failer SpecComponentTypeBeforeSuite 0;
                             runnerB := newRunner (WrapB (takes 2 tB) (IVal tB ib))
                                          loc timeout failer SpecComponentTypeBeforeSuite 0;
                             ginkgoNode := g;
                             totalGinkgoNodes := total;
                             syncHost := host;
                             data := [];
                             outcome := SpecStateInvalid;
                             failure := SpecFailure_zero;
                             runTime := 0 |})).
  { unfold NewCompoundBeforeSuiteNode. rewrite wrapA_eq, wrapB_eq.
    destruct (is_func tA); [|reflexivity].
    destruct (producer_kinds tA); [|reflexivity].
    destruct (is_func tB); [|reflexivity].
    destruct (consumer_kinds tB); reflexivity. }
  split; [exact HN|]. split; [repeat split|]. split; [repeat split|].
  intros HA HB. rewrite HN.
  destruct (producer_shape_kinds _ _ HA) as [-> ->].
  destruct (consumer_shape_kinds _ _ HB) as [-> ->].
  eexists. split; [reflexivity|]. split; eexists; reflexivity.
Qed.

Lemma construction_checks_kinds_witness :
  exists n,
    NewCompoundBeforeSuiteNode producer consumer location 1000 tt 1 3
      "http://127.0.0.1:7788" = Ok n /\
    built_from producer consumer n.
Proof.
  refine (proj2 (proj2 (proj2
    (construction_checks_kinds _ _ 1 2 location 1000 tt 1 3 "http://127.0.0.1:7788")))
    _ _); reflexivity.
Defined.

(** The claim C8 as stated fails: a function that takes a channel of
    errors is not of a producer's shape, and the constructor accepts it. *)
Lemma construction_accepts_a_channel_of_errors :
  producer_shape takes_errors = false /\
  consumer_shape consumer = true /\
  NewCompoundBeforeSuiteNode takes_errors consumer location 1000 tt 1 3
    "http://127.0.0.1:7788"
  = Ok {| runnerA := newRunner (WrapA true takes_errors) location 1000 tt
                       SpecComponentTypeBeforeSuite 0;
          runnerB := newRunner (WrapB true consumer) location 1000 tt
                       SpecComponentTypeBeforeSuite 0;
          ginkgoNode := 1;
          totalGinkgoNodes := 3;
          syncHost := "http://127.0.0.1:7788";
          data := [];
          outcome := SpecStateInvalid;
          failure := SpecFailure_zero;
          runTime := 0 |}.
Proof. repeat split. Qed.

(** A nil argument does panic, though not with a message of the
    constructor's own. *)
Example construction_on_nil :
  NewCompoundBeforeSuiteNode INil consumer location 1000 tt 1 3 "" = Panic nil_dereference.
Proof. reflexivity. Qed.

(** ** Two runs, end to end *)

Example a_follower_waits_then_consumes :
  report (Run (world SpecStatePassed 1
                 (answer_with {| Data := payload; State := RemoteStateStatePassed |}))
              5 (start 2 3))
  = Some (true,
          [EvGet "http://127.0.0.1:7788/BeforeSuiteState";
           EvSleep 50000000;
           EvGet "http://127.0.0.1:7788/BeforeSuiteState";
           EvRun PhaseB;
           EvCall PhaseB consumer [VBytes payload; VDone]],
          payload, SpecStatePassed, 5000000).
Proof. reflexivity. Qed.

Example the_producer_fails_and_says_so :
  report (Run (world SpecStateFailed 0 GetError) 0 (start 1 3))
  = Some (false,
          [EvRun PhaseA;
           EvCall PhaseA producer [];
           EvPost "http://127.0.0.1:7788/BeforeSuiteState" "application/json"
                  (Byte.x03 :: payload) true],
          payload, SpecStateFailed, 3000000).
Proof. reflexivity. Qed.

(** ** Further properties of the node *)

(** Phase A assigns [data] at most. *)
Lemma phaseA_keeps (env : Env) (fuel : nat) (s s1 : St) r :
  phaseA env fuel s = Some (r, s1) ->
  exists d, node s1 = set_data d (node s).
Proof.
  unfold phaseA. destruct (ginkgoNode (node s) =? 1).
  - rewrite runA_eq. cbv zeta. intros E; inversion E; subst; clear E.
    destruct (ran_keeps env PhaseA s) as [d Hd]. exists d.
    destruct (_ >? 1); [unfold published; cbn [node]|]; exact Hd.
  - intros H. apply waitForA_returns in H. destruct H as [n [_ [_ Hw]]].
    apply waitForA_once in Hw. destruct Hw as [_ Hcase].
    rewrite after_polls_node in Hcase.
    destruct Hcase as [[_ [Hn _]] | [rec [_ [_ [_ Hn]]]]].
    + exists (data (node s)). rewrite Hn. destruct (node s); reflexivity.
    + exists (Data rec). exact Hn.
Qed.

(** The node [Run] leaves: the one it found, with [data] assigned, the last
    result stored and the elapsed time. *)
Lemma Run_leaves (env : Env) (fuel : nat) (s s' : St) (b : bool) :
  Run env fuel s = Some (b, s') ->
  exists d r,
    node s' = set_runTime (env_now env (trace s') - env_now env (trace s))
                (set_result r (set_data d (node s))) /\
    b = SpecState_eqb (fst r) SpecStatePassed.
Proof.
  rewrite Run_eq.
  destruct (phaseA env fuel s) as [[rA sA]|] eqn:HA; [|discriminate].
  destruct (phaseA_keeps _ _ _ _ _ HA) as [dA HdA].
  destruct (negb (SpecState_eqb (fst rA) SpecStatePassed)) eqn:E.
  - intros H; inversion H; subst b s'; clear H.
    exists dA, rA. cbn [left_at stored node trace]. rewrite HdA.
    split; [reflexivity|]. apply negb_true_iff in E. now rewrite E.
  - rewrite run_eq. intros H; inversion H; subst b s'; clear H.
    destruct (ran_keeps env PhaseB (stored rA sA)) as [dB HdB].
    exists dB. eexists. cbn [left_at stored node trace]. rewrite HdB.
    cbn [stored node]. rewrite HdA. split; reflexivity.
Qed.

(** X1: [Run] leaves the runners, the ordinal, the number of nodes and the
    server address of the node as they were; so the component type and the
    code location of [Summary] are those of runner A before the run, and
    its state is Passed exactly when [Run] returned true. *)
Theorem Run_keeps_the_setup (env : Env) (fuel : nat) (s s' : St) (b : bool) :
  Run env fuel s = Some (b, s') ->
  same_setup (node s) (node s') /\
  Summary_ComponentType (Summary (node s')) = nodeType (runnerA (node s)) /\
  Summary_CodeLocation (Summary (node s')) = codeLocation (runnerA (node s)) /\
  Summary_Failure (Summary (node s')) = failure (node s') /\
  (Summary_State (Summary (node s')) = SpecStatePassed <-> b = true).
Proof.
  intros H. destruct (Run_leaves _ _ _ _ _ H) as [d [r [Hn Hb]]].
  rewrite Hn. unfold same_setup, Summary.
  cbn [set_runTime set_result set_data runnerA runnerB ginkgoNode
       totalGinkgoNodes syncHost outcome failure
       Summary_ComponentType Summary_CodeLocation Summary_Failure Summary_State].
  repeat split; subst b.
  - intros Hp. now apply SpecState_eqb_eq.
  - intros Hp. now apply SpecState_eqb_eq.
Qed.

Lemma Run_keeps_the_setup_witness :
  exists s',
    Run (world SpecStatePassed 1 GetError) 3 (start 2 3) = Some (false, s') /\
    same_setup (node (start 2 3)) (node s') /\
    Summary_CodeLocation (Summary (node s')) = location.
Proof.
  eexists. split; [reflexivity|].
  refine ((fun H => conj (proj1 H) (proj1 (proj2 (proj2 H))))
            (Run_keeps_the_setup (world SpecStatePassed 1 GetError) 3
               (start 2 3) _ false _)).
  reflexivity.
Defined.

(** X2: whichever way [Run] returns, the run time it leaves in the node is
    the clock at its exit minus the clock at its entry, and [Summary]
    reports it. *)
Theorem Run_measures_the_elapsed_time (env : Env) (fuel : nat) (s s' : St)
    (b : bool) :
  Run env fuel s = Some (b, s') ->
  runTime (node s') = env_now env (trace s') - env_now env (trace s) /\
  Summary_RunTime (Summary (node s')) = env_now env (trace s') - env_now env (trace s).
Proof.
  intros H. destruct (Run_leaves _ _ _ _ _ H) as [d [r [Hn _]]].
  rewrite Hn. split; reflexivity.
Qed.

Lemma Run_measures_the_elapsed_time_witness :
  exists s',
    Run (world SpecStatePassed 1 GetError) 3 (start 2 3) = Some (false, s') /\
    runTime (node s') = 3 * Millisecond.
Proof.
  eexists. split; [reflexivity|].
  exact (proj1 (Run_measures_the_elapsed_time (world SpecStatePassed 1 GetError) 3
                  (start 2 3) _ false eq_refl)).
Defined.

(** X3: when phase A ends Passed, [Run] enters runner B exactly once,
    right after phase A, and what it leaves and returns is runner B's
    verdict alone: outcome and failure are runner B's, phase A's failure
    record is dropped, and the result is true exactly when runner B
    reported Passed. *)
Theorem passed_phaseA_hands_over_to_B (env : Env) (fuel : nat) (s sA : St)
    (fA : SpecFailure) :
  phaseA env fuel s = Some ((SpecStatePassed, fA), sA) ->
  exists s' cB,
    let oB := fst (env_verdict env (trace s')) in
    Run env fuel s = Some (SpecState_eqb oB SpecStatePassed, s') /\
    trace s' = trace sA ++ [EvRun PhaseB; cB] /\
    is_run PhaseB cB = false /\
    outcome (node s') = oB /\
    failure (node s') = snd (env_verdict env (trace s')).
Proof.
  intros HA.
  rewrite (Run_gate_open env fuel s _ sA HA eq_refl). cbv zeta.
  set (sB := ran env PhaseB (stored (SpecStatePassed, fA) sA)).
  exists (left_at env (env_now env (trace s)) (stored (env_verdict env (trace sB)) sB)).
  eexists. split; [reflexivity|].
  cbn [left_at stored node trace set_runTime set_result outcome failure].
  unfold sB. rewrite ran_trace. cbn [stored trace].
  split; [reflexivity|]. split; [|split; reflexivity].
  destruct (wrapped _) as [? ?|? ?]; reflexivity.
Qed.

Lemma passed_phaseA_hands_over_to_B_witness :
  let env := world SpecStateFailed 0
               (answer_with {| Data := payload; State := RemoteStateStatePassed |}) in
  exists s' cB,
    Run env 1 (start 2 3) = Some (false, s') /\
    trace s' = [EvGet (url (start 2 3))] ++ [EvRun PhaseB; cB] /\
    is_run PhaseB cB = false /\
    outcome (node s') = SpecStateFailed /\
    failure (node s') = SpecFailure_zero.
Proof.
  intros env.
  exact (passed_phaseA_hands_over_to_B env 1 (start 2 3)
           {| node := set_data payload (fresh 2 3);
              trace := [EvGet (url (start 2 3))] |}
           SpecFailure_zero eq_refl).
Defined.

(** *** The wait, attempt by attempt *)


(** An attempt that returns does so whatever fuel is left. *)
Lemma waitForA_once_more (env : Env) (fuel : nat) (s : St) x :
  waitForA env 1 s = Some x -> waitForA env (S fuel) s = Some x.
Proof.
  destruct (answer_cases env s) as [H | [H | [H | [rec H]]]].
  - now rewrite (waitForA_fetch_fails env 0 s H), (waitForA_fetch_fails env fuel s H).
  - now rewrite (waitForA_body_unreadable env 0 s H),
      (waitForA_body_unreadable env fuel s H).
  - now rewrite (waitForA_body_malformed env 0 s H),
      (waitForA_body_malformed env fuel s H).
  - rewrite (waitForA_observes env 0 s rec H), (waitForA_observes env fuel s rec H).
    destruct (State rec =? RemoteStateStatePassed); [auto|].
    destruct (State rec =? RemoteStateStateFailed); [auto|].
    destruct (State rec =? RemoteStateStateDisappeared); [auto|].
    intros E. discriminate E.
Qed.

Lemma waitForA_once_spins (env : Env) (s : St) :
  waitForA env 1 s = None <-> keeps_polling env s.
Proof.
  split.
  - intros H. exact (proj1 (waitForA_spins env 1 s H)).
  - intros H. rewrite (waitForA_keeps_polling env 0 s H). reflexivity.
Qed.



(** X5: a wait returns exactly when, within the attempts it is given, an
    answer arrives that is not a record to keep polling on, all answers
    before it being such records; and once it has returned, more attempts
    change nothing of its result. *)
Theorem wait_returns_on_the_first_final_answer (env : Env) (fuel : nat) (s : St) :
  ((exists x, waitForA env fuel s = Some x) <->
   (exists n, (n < fuel)%nat /\ all_pending env n s /\
              ~ keeps_polling env (after_polls n s))) /\
  (forall x more,
     waitForA env fuel s = Some x -> waitForA env (fuel + more) s = Some x).
Proof.
  split; [split|].
  - intros [[r s1] H]. apply waitForA_returns in H.
    destruct H as [n [Hn [Hp Hw]]]. exists n. repeat split; try assumption.
    intros Hk. apply waitForA_once_spins in Hk. congruence.
  - intros [n [Hn [Hp Hk]]].
    replace fuel with (n + S (fuel - S n))%nat by lia.
    rewrite (waitForA_all_pending env n _ s Hp).
    destruct (waitForA env 1 (after_polls n s)) as [x|] eqn:Hw.
    + exists x. apply waitForA_once_more, Hw.
    + apply waitForA_once_spins in Hw. contradiction.
  - intros [r s1] more H. apply waitForA_returns in H.
    destruct H as [n [Hn [Hp Hw]]].
    replace (fuel + more)%nat with (n + S (fuel - S n + more))%nat by lia.
    rewrite (waitForA_all_pending env n _ s Hp).
    apply waitForA_once_more, Hw.
Qed.

Lemma wait_returns_on_the_first_final_answer_witness :
  waitForA (world SpecStatePassed 1 GetError) (2 + 5) (start 2 3)
  = Some ((SpecStateFailed, failureAt (fresh 2 3) msg_fetch),
          got (slept (start 2 3))).
Proof.
  exact (proj2 (wait_returns_on_the_first_final_answer
                  (world SpecStatePassed 1 GetError) 2 (start 2 3))
               _ 5%nat eq_refl).
Defined.



(** *** The producer and its followers *)

(** X7: on node 1 with other nodes, the POST is the third event of [Run],
    right after runner A and its call, whatever runner A reported: the
    followers are told of a failure as well as of a success, and before
    runner B is entered on node 1. *)
Theorem producer_publishes_before_phaseB (env : Env) (fuel : nat) (s : St) :
  ginkgoNode (node s) = 1 ->
  1 < totalGinkgoNodes (node s) ->
  exists b s' cA post trB,
    Run env fuel s = Some (b, s') /\
    trace s' = trace s ++ [EvRun PhaseA; cA; post] ++ trB /\
    is_post cA = false /\
    is_post post = true /\
    count is_post trB = 0%nat /\
    count (is_run PhaseB) trB
    = (if SpecState_eqb (fst (env_verdict env (trace (ran env PhaseA s))))
                        SpecStatePassed
       then 1 else 0)%nat.
Proof.
  intros H1 Ht.
  destruct (Run_producer env fuel s H1) as [b [s' [trB [HR [Htr [_ Hcase]]]]]].
  assert (Hgt : (totalGinkgoNodes (node s) >? 1) = true) by (apply Z.gtb_lt; lia).
  rewrite Hgt in Htr.
  assert (Hc : forall w n, is_post (call_of w n) = false /\
                           is_run PhaseB (call_of w n) = false)
    by (intros [? ?|? ?] n; split; reflexivity).
  exists b, s'. do 2 eexists. exists trB.
  split; [exact HR|]. split; [exact Htr|].
  split; [apply Hc|]. split; [reflexivity|].
  destruct Hcase as [[Hne [-> _]] | [He ->]].
  - apply SpecState_eqb_neq in Hne. rewrite Hne. split; reflexivity.
  - rewrite He. unfold count. cbn [filter is_post is_run].
    destruct (Hc (wrapped (runnerB (node s))) (node (ran env PhaseA s))) as [-> ->].
    split; reflexivity.
Qed.

Lemma producer_publishes_before_phaseB_witness :
  let env := world SpecStateFailed 0 GetError in
  exists b s' cA post trB,
    Run env 0 (start 1 3) = Some (b, s') /\
    trace s' = trace (start 1 3) ++ [EvRun PhaseA; cA; post] ++ trB /\
    is_post cA = false /\
    is_post post = true /\
    count is_post trB = 0%nat /\
    count (is_run PhaseB) trB = 0%nat.
Proof.
  intros env.
  apply (producer_publishes_before_phaseB env 0 (start 1 3)); reflexivity.
Defined.



(** X9: node 1 and a follower, put together.  When the server hands the
    follower the body node 1 posted and the follower's decoder undoes node
    1's encoder on Passed and Failed records, the follower ends its wait,
    on that attempt, as node 1 ended phase A: Passed with node 1's payload
    in its own [data] when runner A reported Passed, and Failed with
    "BeforeSuite on Node 1 failed", its [data] untouched, for every other
    outcome of runner A. *)
Theorem follower_adopts_what_node_1_published (envP envF : Env)
    (sP sP' sF : St) (fuel : nat) (o : SpecState) (f : SpecFailure)
    (tr : list Event) (u c : string) (body : bytes) (ok : bool) :
  1 < totalGinkgoNodes (node sP) ->
  runA envP sP = Some ((o, f), sP') ->
  trace sP' = tr ++ [EvPost u c body ok] ->
  (forall r, State r = RemoteStateStatePassed \/ State r = RemoteStateStateFailed ->
             env_unmarshal envF (env_marshal envP r) = Some r) ->
  answer envF sF = GetOk {| StatusCode := StatusOK; Body := Some body |} ->
  (o = SpecStatePassed ->
   waitForA envF (S fuel) sF
   = Some ((SpecStatePassed, SpecFailure_zero),
           {| node := set_data (data (node sP')) (node sF);
              trace := trace (got sF) |})) /\
  (o <> SpecStatePassed ->
   waitForA envF (S fuel) sF
   = Some ((SpecStateFailed, failureAt (node sF) "BeforeSuite on Node 1 failed"),
           got sF)).
Proof.
  intros Ht HA Htr Hcodec Hans.
  destruct (ran_keeps envP PhaseA sP) as [dA HkA].
  assert (Hgt : (totalGinkgoNodes (node (ran envP PhaseA sP)) >? 1) = true).
  { rewrite HkA. cbn [set_data totalGinkgoNodes]. apply Z.gtb_lt. lia. }
  rewrite runA_eq in HA. cbv zeta in HA. rewrite Hgt in HA.
  inversion HA as [[Hv HsP]]; clear HA.
  assert (Ho : fst (env_verdict envP (trace (ran envP PhaseA sP))) = o)
    by (rewrite Hv; reflexivity).
  rewrite Ho in HsP. subst sP'.
  unfold published in Htr. cbn [trace] in Htr.
  apply app_inj_tail in Htr. destruct Htr as [_ Hpost].
  unfold publication in Hpost. cbv zeta in Hpost.
  inversion Hpost as [[Hu Hc Hbody Hok]]; clear Hpost.
  assert (Hobs : observes envF sF (record_of o (node (ran envP PhaseA sP)))).
  { exists {| StatusCode := StatusOK; Body := Some body |}, body.
    repeat split; [exact Hans|]. rewrite <- Hbody. unfold ToJSON.
    apply Hcodec. unfold record_of. cbn [State].
    destruct (SpecState_eqb o SpecStatePassed); auto. }
  rewrite (waitForA_observes envF fuel sF _ Hobs).
  unfold record_of, published. cbn [State Data node].
  split.
  - intros ->. reflexivity.
  - intros Hne. apply SpecState_eqb_neq in Hne. rewrite Hne. reflexivity.
Qed.

Lemma follower_adopts_what_node_1_published_witness :
  let envP := world SpecStatePassed 0 GetError in
  let envF := world SpecStatePassed 0
                (answer_with {| Data := payload; State := RemoteStateStatePassed |}) in
  waitForA envF 1 (start 2 3)
  = Some ((SpecStatePassed, SpecFailure_zero),
          {| node := set_data payload (node (start 2 3));
             trace := trace (got (start 2 3)) |}).
Proof.
  intros envP envF.
  refine (proj1 (follower_adopts_what_node_1_published envP envF
                   (start 1 3) _ (start 2 3) 0 SpecStatePassed SpecFailure_zero
                   [EvRun PhaseA; EvCall PhaseA producer []]
                   _ _ (Byte.x02 :: payload) true _ eq_refl eq_refl _ eq_refl)
                eq_refl).
  - reflexivity.
  - intros [dat st] [H | H]; cbn in H; subst st; reflexivity.
Defined.

(** *** The constructor *)

Lemma producer_args_fit t :
  producer_kinds t = true ->
  Forall2 fits (done_arg (takes 1 t)) (params_of t).
Proof.
  unfold producer_kinds, takes, params_of, done_arg.
  destruct (underlying t) as [| | | |ms|d e|e|e|ins outs|name u]; try discriminate.
  destruct ins as [|i [|i2 ins]]; destruct outs as [|o [|o2 outs]];
    try discriminate; cbn [List.length Nat.eqb].
  - intros _. constructor.
  - intros H. apply andb_prop in H. destruct H as [Hi _].
    constructor; [exact Hi | constructor].
Qed.

Lemma consumer_args_fit t (payload : bytes) :
  consumer_kinds t = true ->
  Forall2 fits (VBytes payload :: done_arg (takes 2 t)) (params_of t).
Proof.
  unfold consumer_kinds, takes, params_of, done_arg.
  destruct (underlying t) as [| | | |ms|d e|e|e|ins outs|name u]; try discriminate.
  destruct ins as [|i [|j [|k ins]]]; destruct outs as [|o outs];
    try discriminate; cbn [List.length Nat.eqb].
  - intros H. constructor; [exact H | constructor].
  - intros H. apply andb_prop in H. destruct H as [Hi Hj].
    constructor; [exact Hi | constructor; [exact Hj | constructor]].
Qed.

Lemma constructed (tA tB : reflect.Type_) (ia ib : nat) loc timeout failer
    g total host n :
  NewCompoundBeforeSuiteNode (IVal tA ia) (IVal tB ib) loc timeout failer g total host
  = Ok n ->
  producer_kinds tA = true /\ consumer_kinds tB = true /\
  wrapped (runnerA n) = WrapA (takes 1 tA) (IVal tA ia) /\
  wrapped (runnerB n) = WrapB (takes 2 tB) (IVal tB ib).
Proof.
  unfold NewCompoundBeforeSuiteNode. rewrite wrapA_eq, wrapB_eq.
  destruct (is_func tA); [|discriminate].
  destruct (producer_kinds tA); [|discriminate].
  destruct (is_func tB); [|discriminate].
  destruct (consumer_kinds tB); [|discriminate].
  cbn [negb bindR]. intros E; inversion E; subst n. repeat split.
Qed.

(** X10: on a node the constructor returned, each runner issues one
    reflective call of the user's function it was built from, with as many
    arguments as the function has parameters and each of the kind its
    parameter has: nothing or the Done channel for the producer; the
    current value of [node.data], then the Done channel if there is a
    second parameter, for the consumer. *)
Theorem adapters_pass_fitting_arguments (tA tB : reflect.Type_) (ia ib : nat)
    (loc : CodeLocation) (timeout : Z) (failer : Failer) (g total : Z)
    (host : string) (n : compoundBeforeSuiteNode) (env : Env) (s : St) :
  NewCompoundBeforeSuiteNode (IVal tA ia) (IVal tB ib) loc timeout failer g total host
  = Ok n ->
  runnerA (node s) = runnerA n ->
  runnerB (node s) = runnerB n ->
  exists argsA argsB,
    trace (ran env PhaseA s)
    = trace s ++ [EvRun PhaseA; EvCall PhaseA (IVal tA ia) argsA] /\
    Forall2 fits argsA (params_of tA) /\
    trace (ran env PhaseB s)
    = trace s ++ [EvRun PhaseB; EvCall PhaseB (IVal tB ib) argsB] /\
    Forall2 fits argsB (params_of tB) /\
    hd VDone argsB = VBytes (data (node s)).
Proof.
  intros HN HrA HrB.
  destruct (constructed _ _ _ _ _ _ _ _ _ _ _ HN) as [HkA [HkB [HwA HwB]]].
  exists (done_arg (takes 1 tA)), (VBytes (data (node s)) :: done_arg (takes 2 tB)).
  rewrite !ran_trace. cbn [runner_of]. rewrite HrA, HrB, HwA, HwB. cbn [call_of].
  split; [reflexivity|]. split; [apply producer_args_fit, HkA|].
  split; [reflexivity|]. split; [apply consumer_args_fit, HkB|].
  reflexivity.
Qed.

Lemma adapters_pass_fitting_arguments_witness :
  let env := world SpecStatePassed 0 GetError in
  exists argsA argsB,
    trace (ran env PhaseA (start 1 3))
    = trace (start 1 3) ++ [EvRun PhaseA; EvCall PhaseA producer argsA] /\
    Forall2 fits argsA (params_of (reflect.TFunc [] [Bytes])) /\
    trace (ran env PhaseB (start 1 3))
    = trace (start 1 3) ++ [EvRun PhaseB; EvCall PhaseB consumer argsB] /\
    Forall2 fits argsB (params_of (reflect.TFunc [Bytes; Done] [])) /\
    hd VDone argsB = VBytes (data (node (start 1 3))).
Proof.
  intros env.
  apply (adapters_pass_fitting_arguments _ _ 1 2 location 1000 tt 1 3
           "http://127.0.0.1:7788" (fresh 1 3) env (start 1 3)); reflexivity.
Defined.

(** X11: the two arguments are checked in order, and the constructor stops
    at the first that fails.  A nil first argument panics with Go's nil
    dereference whatever the second is; a first argument that fails its
    check gives the same panic whatever the second is, nil included; and a
    nil second argument after a good first one panics with the nil
    dereference. *)
Theorem constructor_stops_at_the_first_bad_argument (loc : CodeLocation)
    (timeout : Z) (failer : Failer) (g total : Z) (host : string) :
  (forall bodyB,
     NewCompoundBeforeSuiteNode INil bodyB loc timeout failer g total host
     = Panic nil_dereference) /\
  (forall tA ia bodyB,
     is_func tA && producer_kinds tA = false ->
     NewCompoundBeforeSuiteNode (IVal tA ia) bodyB loc timeout failer g total host
     = Panic (if is_func tA then msgA_shape else msgA_notfunc)) /\
  (forall tA ia,
     is_func tA && producer_kinds tA = true ->
     NewCompoundBeforeSuiteNode (IVal tA ia) INil loc timeout failer g total host
     = Panic nil_dereference).
Proof.
  split; [|split].
  - intros bodyB. reflexivity.
  - intros tA ia bodyB H. unfold NewCompoundBeforeSuiteNode. rewrite wrapA_eq.
    destruct (is_func tA); [|reflexivity].
    cbn [andb] in H. rewrite H. reflexivity.
  - intros tA ia H. unfold NewCompoundBeforeSuiteNode. rewrite wrapA_eq.
    apply andb_prop in H. destruct H as [-> ->]. reflexivity.
Qed.

Lemma constructor_stops_at_the_first_bad_argument_witness :
  NewCompoundBeforeSuiteNode (IVal reflect.TInt 7) INil location 1000 tt 1 3 ""
  = Panic msgA_notfunc.
Proof.
  exact (proj1 (proj2 (constructor_stops_at_the_first_bad_argument
                         location 1000 tt 1 3 ""))
               reflect.TInt 7%nat INil eq_refl).
Defined.

Lemma wrapA_Ok v w : wrapA v = Ok w -> exists d, w = WrapA d v.
Proof.
  destruct v as [|t ident]; [discriminate|]. rewrite wrapA_eq.
  destruct (is_func t); [|discriminate].
  destruct (producer_kinds t); [|discriminate].
  intros E; inversion E. eexists; reflexivity.
Qed.

Lemma wrapB_Ok v w : wrapB v = Ok w -> exists d, w = WrapB d v.
Proof.
  destruct v as [|t ident]; [discriminate|]. rewrite wrapB_eq.
  destruct (is_func t); [|discriminate].
  destruct (consumer_kinds t); [|discriminate].
  intros E; inversion E. eexists; reflexivity.
Qed.

(** X12: a node the constructor returns has not passed: [Passed()] is
    false and [Summary] shows the BeforeSuite component at the given
    location with the zero state, no failure and no run time, until [Run]
    is called.  Its payload is empty, it has the ordinal, node count and
    server address it was given, and its two runners hold the closures of
    the two functions, with the same location and timeout. *)
Theorem constructor_yields_a_fresh_node (bodyA bodyB : Iface)
    (loc : CodeLocation) (timeout : Z) (failer : Failer) (g total : Z)
    (host : string) (n : compoundBeforeSuiteNode) :
  NewCompoundBeforeSuiteNode bodyA bodyB loc timeout failer g total host = Ok n ->
  Passed n = false /\
  Summary n = {| Summary_ComponentType := SpecComponentTypeBeforeSuite;
                 Summary_CodeLocation := loc;
                 Summary_State := SpecStateInvalid;
                 Summary_RunTime := 0;
                 Summary_Failure := SpecFailure_zero |} /\
  data n = [] /\
  (ginkgoNode n = g /\ totalGinkgoNodes n = total /\ syncHost n = host) /\
  built_from bodyA bodyB n /\
  (codeLocation (runnerB n) = loc /\
   timeoutThreshold (runnerA n) = timeout /\
   timeoutThreshold (runnerB n) = timeout).
Proof.
  unfold NewCompoundBeforeSuiteNode.
  destruct (wrapA bodyA) as [a|msg] eqn:HA; [|discriminate].
  destruct (wrapB bodyB) as [b|msg] eqn:HB; [|discriminate].
  cbn [bindR]. intros E; inversion E; subst n; clear E.
  destruct (wrapA_Ok _ _ HA) as [dA ->]. destruct (wrapB_Ok _ _ HB) as [dB ->].
  repeat split; eexists; reflexivity.
Qed.

Lemma constructor_yields_a_fresh_node_witness :
  Passed (fresh 2 3) = false /\ data (fresh 2 3) = [].
Proof.
  refine ((fun H => conj (proj1 H) (proj1 (proj2 (proj2 H))))
            (constructor_yields_a_fresh_node producer consumer location 1000 tt
               2 3 "http://127.0.0.1:7788" (fresh 2 3) _)).
  reflexivity.
Defined.
